(** * Blog domain objects and blog audit transforms of Oppia

    A shallow embedding of [core/domain/blog_domain.py],
    [jobs/transforms/blog_validations.py] and [jobs/blog_validation_error.py],
    followed by the properties of the specification that concern them.

    Python values are dynamically typed, so the fields the validators inspect
    are kept as [value]s; exceptions are explicit ([result]); methods that may
    write to [self] are state-passing computations ([method]). *)

From Stdlib Require Import Ascii String ZArith Lia.
From stdpp Require Import base option list strings pretty gmap sorting.

Local Open Scope string_scope.
Local Open Scope list_scope.
Set Warnings "-register-all".

(* ===================================================================== *)
(** ** The Python runtime the code relies on *)
(* ===================================================================== *)

(** A naive [datetime.datetime]. *)
Record datetime := Datetime {
  dt_year : Z; dt_month : Z; dt_day : Z;
  dt_hour : Z; dt_minute : Z; dt_second : Z; dt_microsecond : Z
}.

(** The values that reach the blog code: [None], integers, unicode strings,
    naive datetimes and lists. *)
Inductive value :=
| VNone
| VInt (n : Z)
| VStr (s : string)
| VDatetime (d : datetime)
| VList (l : list value).

Definition datetime_eqb (a b : datetime) : bool :=
  (dt_year a =? dt_year b)%Z && (dt_month a =? dt_month b)%Z &&
  (dt_day a =? dt_day b)%Z && (dt_hour a =? dt_hour b)%Z &&
  (dt_minute a =? dt_minute b)%Z && (dt_second a =? dt_second b)%Z &&
  (dt_microsecond a =? dt_microsecond b)%Z.

(** Python's [==] on these values. *)
Fixpoint py_eq (a b : value) : bool :=
  match a, b with
  | VNone, VNone => true
  | VInt m, VInt n => (m =? n)%Z
  | VStr s, VStr t => String.eqb s t
  | VDatetime d, VDatetime e => datetime_eqb d e
  | VList l, VList m =>
      (fix all2 (l m : list value) : bool :=
         match l, m with
         | [], [] => true
         | x :: l', y :: m' => py_eq x y && all2 l' m'
         | _, _ => false
         end) l m
  | _, _ => false
  end.

(** [x in l] for a list [l]. *)
Definition py_in (x : value) (l : list value) : bool := existsb (py_eq x) l.

(** [set(l)] keeps one representative of every class of equal elements; only
    its length is ever used. *)
Fixpoint py_set (l : list value) : list value :=
  match l with
  | [] => []
  | x :: l' => if py_in x l' then py_set l' else x :: py_set l'
  end.

(** [isinstance(v, python_utils.BASESTRING)] and [isinstance(v, list)]. *)
Definition is_basestring (v : value) : bool :=
  match v with VStr _ => true | _ => false end.

Definition is_list (v : value) : bool :=
  match v with VList _ => true | _ => false end.

(** Truth value of an object, as tested by [if x:]. *)
Definition truthy (v : value) : bool :=
  match v with
  | VNone => false
  | VInt n => negb (n =? 0)%Z
  | VStr s => negb (String.eqb s "")
  | VDatetime _ => true
  | VList l => match l with [] => false | _ => true end
  end.

(** Exceptions. [ValidationError] is [utils.ValidationError]. *)
Inductive exn :=
| ValidationError (msg : string)
| NameError (name : string)
| TypeError (msg : string)
| AttributeError (msg : string)
| KeyError (key : string)
| IndexError (msg : string)
| ValueError (msg : string)
| Exception (msg : string).

Inductive result (A : Type) :=
| Ok (a : A)
| Raise (e : exn).
Arguments Ok {A} a.
Arguments Raise {A} e.

#[global] Instance result_ret : MRet result := @Ok.
#[global] Instance result_bind : MBind result :=
  fun A B f m => match m with Ok a => f a | Raise e => Raise e end.

(** [raise utils.ValidationError(msg)] guarded by a condition. *)
Definition raise_if (cond : bool) (e : exn) : result unit :=
  if cond then Raise e else Ok tt.

Definition is_ok {A} (r : result A) : bool :=
  match r with Ok _ => true | Raise _ => false end.

Definition is_validation_error {A} (r : result A) : bool :=
  match r with Raise (ValidationError _) => true | _ => false end.

(** A method of an object of type [S]: it runs on the current state of
    [self] and returns its outcome together with the state it leaves. An
    exception keeps the writes made before it. *)
Definition method (S A : Type) : Type := S -> result A * S.

#[global] Instance method_ret {S} : MRet (method S) := fun A a s => (Ok a, s).
#[global] Instance method_bind {S} : MBind (method S) :=
  fun A B f m s =>
    match m s with
    | (Ok a, s') => f a s'
    | (Raise e, s') => (Raise e, s')
    end.

(** [self.f] *)
Definition attr {S A} (f : S -> A) : method S A := fun s => (Ok (f s), s).
(** [self.f = v], given the record update for [f]. *)
Definition setattr {S} (upd : S -> S) : method S unit := fun s => (Ok tt, upd s).
(** Call of a function that does not receive [self]. *)
Definition call {S A} (r : result A) : method S A := fun s => (r, s).

(** A generator run to exhaustion: what it yielded, and the exception that
    ended it, if any. *)
Record generated (A : Type) := Generated {
  yielded : list A;
  ended_by : option exn
}.
Arguments Generated {A} _ _.
Arguments yielded {A} _.
Arguments ended_by {A} _.

(* ===================================================================== *)
(** ** Regular expressions ([re]) *)
(* ===================================================================== *)

Module Re.

Inductive regex :=
| Void
| Eps
| Class (p : ascii -> bool)
| Seq (r1 r2 : regex)
| Alt (r1 r2 : regex)
| Star (r : regex).

(** [r+] *)
Definition Plus (r : regex) : regex := Seq r (Star r).

(** The language of a regular expression. *)
Inductive lang : regex -> list ascii -> Prop :=
| lang_eps : lang Eps []
| lang_class p c : p c = true -> lang (Class p) [c]
| lang_seq r1 r2 s1 s2 : lang r1 s1 -> lang r2 s2 -> lang (Seq r1 r2) (s1 ++ s2)
| lang_alt_l r1 r2 s : lang r1 s -> lang (Alt r1 r2) s
| lang_alt_r r1 r2 s : lang r2 s -> lang (Alt r1 r2) s
| lang_star_nil r : lang (Star r) []
| lang_star_cons r s1 s2 :
  lang r s1 -> lang (Star r) s2 -> lang (Star r) (s1 ++ s2).

Fixpoint nullable (r : regex) : bool :=
match r with
| Void => false
| Eps => true
| Class _ => false
| Seq r1 r2 => nullable r1 && nullable r2
| Alt r1 r2 => nullable r1 || nullable r2
| Star _ => true
end.

(** Brzozowski derivative. *)
Fixpoint deriv (c : ascii) (r : regex) : regex :=
match r with
| Void => Void
| Eps => Void
| Class p => if p c then Eps else Void
| Seq r1 r2 =>
    if nullable r1 then Alt (Seq (deriv c r1) r2) (deriv c r2)
    else Seq (deriv c r1) r2
| Alt r1 r2 => Alt (deriv c r1) (deriv c r2)
| Star r1 => Seq (deriv c r1) (Star r1)
end.

(** The whole of [s] is a word of [r]. *)
Fixpoint fullmatch (r : regex) (s : list ascii) : bool :=
match s with
| [] => nullable r
| c :: s' => fullmatch (deriv c r) s'
end.

(** Some prefix of [s] is a word of [r]. *)
Fixpoint prefixmatch (r : regex) (s : list ascii) : bool :=
nullable r ||
match s with
| [] => false
| c :: s' => prefixmatch (deriv c r) s'
end.

(** Some factor of [s] is a word of [r]. *)
Fixpoint anywhere (r : regex) (s : list ascii) : bool :=
prefixmatch r s ||
match s with
| [] => false
| _ :: s' => anywhere r s'
end.

(** A pattern as the code writes it: a body, optionally closed by [$].
  A leading [^] changes nothing for [re.match], which only tries position
  0, and the patterns given to [re.search] here carry no anchor. *)
Record pattern := Pattern {
body : regex;
dollar : bool
}.

Definition newline : ascii := "010"%char.

(** [$] holds at the end of the string and just before a newline that ends
  the string. *)
Definition at_dollar (rest : list ascii) : bool :=
match rest with
| [] => true
| [c] => Ascii.eqb c newline
| _ => false
end.

Fixpoint match_dollar (r : regex) (s : list ascii) : bool :=
(nullable r && at_dollar s) ||
match s with
| [] => false
| c :: s' => match_dollar (deriv c r) s'
end.

(** [re.match(p, s)] as a truth value. *)
Definition re_match (p : pattern) (s : string) : bool :=
let l := list_ascii_of_string s in
if dollar p then match_dollar (body p) l else prefixmatch (body p) l.

(** [re.search(p, s)] as a truth value, for a pattern without anchors. *)
Definition re_search (p : pattern) (s : string) : bool :=
anywhere (body p) (list_ascii_of_string s).

(** Character classes. *)
Definition lower (c : ascii) : bool :=
let n := nat_of_ascii c in (97 <=? n)%nat && (n <=? 122)%nat.
Definition upper (c : ascii) : bool :=
let n := nat_of_ascii c in (65 <=? n)%nat && (n <=? 90)%nat.
Definition space (c : ascii) : bool := Ascii.eqb c " "%char.
(** [\s] of a pattern compiled without [re.UNICODE]: [ \t\n\r\f\v]. *)
Definition whitespace (c : ascii) : bool :=
let n := nat_of_ascii c in (n =? 32)%nat || ((9 <=? n)%nat && (n <=? 13)%nat).

End Re.

(* ===================================================================== *)
(** ** Stored records and collaborators outside the audited files *)
(* ===================================================================== *)

(** A stored blog post ([blog_models.BlogPostModel]), with the properties the
    audit reads. *)
Record BlogPostModel := {
  model_id : string;
  model_author_id : string;
  model_title : string;
  model_url_fragment : string
}.

(** A stored blog post summary ([blog_models.BlogPostSummaryModel]). *)
Record BlogPostSummaryModel := {
  summary_model_id : string;
  summary_model_title : string
}.

(** The code the blog files call into but do not contain: the shared
    constants, [utils], [html_cleaner], [user_services], [json], [job_utils],
    and the [%s] rendering of a value. Nothing is assumed about them here; a
    property that needs a fact about one of them states it. *)
Class Collaborators := {
  MAX_CHARS_IN_BLOG_POST_TITLE : nat;
  MAX_CHARS_IN_BLOG_POST_URL_FRAGMENT : nat;
  VALID_BLOG_POST_TITLE_REGEX : Re.pattern;
  utils_require_valid_thumbnail_filename : value -> result unit;
  utils_require_valid_url_fragment : value -> string -> nat -> result unit;
  utils_convert_naive_datetime_to_string : value -> result value;
  utils_convert_string_to_naive_datetime_object : value -> result value;
  utils_quoted : string -> string;
  html_cleaner_clean : value -> result value;
  user_services_get_user_id_from_username : value -> result value;
  user_services_get_username : value -> result value;
  (** the utf-8 encoded JSON text *)
  json_text : Type;
  json_dumps : gmap string value -> result json_text;
  json_loads : json_text -> result (gmap string value);
  job_utils_clone_model : BlogPostModel -> BlogPostModel;
  py_str : value -> string
}.

(** Modelled from the spec: [constants.TAG_REGEX] is not among the sources;
    the specification of the tag rules gives it as [^[a-z ]+$]. *)
Definition TAG_REGEX : Re.pattern :=
  Re.Pattern (Re.Plus (Re.Class (fun c => Re.lower c || Re.space c))) true.

(** [string.ascii_lowercase] *)
Definition ascii_lowercase : string := "abcdefghijklmnopqrstuvwxyz".

(** [c in text] for a one-character [c]. *)
Definition char_in (c : ascii) (text : string) : bool :=
  existsb (Ascii.eqb c) (list_ascii_of_string text).

(** [d[k]] *)
Definition getitem (d : gmap string value) (k : string) : result value :=
  match d !! k with
  | Some v => Ok v
  | None => Raise (KeyError k)
  end.

(* ===================================================================== *)
(** ** core/domain/blog_domain.py *)
(* ===================================================================== *)

(** The tag rules are written twice in the source, once per class, letter
    for letter; the loop body is shared here and each class calls it. *)
Section TagLoop.
Context `{Collaborators}.

(** Body of [for tag in tags:]. *)
Definition check_tag (tag : value) : result unit :=
  match tag with
  | VStr s =>
      _ ← raise_if (negb (Re.re_match TAG_REGEX s))
            (ValidationError
               ("Tags should only contain lowercase letters and spaces, "
                +:+ "received: '" +:+ py_str tag +:+ "'"));
      first_last ←
        match head (list_ascii_of_string s), last (list_ascii_of_string s) with
        | Some a, Some b => Ok (a, b)
        | _, _ => Raise (IndexError "string index out of range")
        end;
      _ ← raise_if (negb (char_in first_last.1 ascii_lowercase)
                    || negb (char_in first_last.2 ascii_lowercase))
            (ValidationError
               ("Tags should not start or end with whitespace, received: "
                +:+ "'" +:+ py_str tag +:+ "'"));
      raise_if
        (Re.re_search
           (Re.Pattern (Re.Seq (Re.Class Re.whitespace)
                          (Re.Plus (Re.Class Re.whitespace))) false) s)
        (ValidationError
           ("Adjacent whitespace in tags should be collapsed, "
            +:+ "received: '" +:+ py_str tag +:+ "'"))
  | _ =>
      Raise (ValidationError
               ("Expected each tag in 'tags' to be a string, received: "
                +:+ "'" +:+ py_str tag +:+ "'"))
  end.

Fixpoint for_tag_in (tags : list value) : result unit :=
  match tags with
  | [] => Ok tt
  | tag :: rest => _ ← check_tag tag; for_tag_in rest
  end.
End TagLoop.

Module BlogPost.

Record t := Make {
  id : value;
  author_id : value;
  title : value;
  thumbnail_filename : value;
  content : value;
  published_on : value;
  last_updated : value;
  url_fragment : value;
  tags : value
}.

Definition set_title (v : value) (p : t) : t :=
  Make (id p) (author_id p) v (thumbnail_filename p) (content p)
    (published_on p) (last_updated p) (url_fragment p) (tags p).
Definition set_thumbnail_filename (v : value) (p : t) : t :=
  Make (id p) (author_id p) (title p) v (content p)
    (published_on p) (last_updated p) (url_fragment p) (tags p).
Definition set_content (v : value) (p : t) : t :=
  Make (id p) (author_id p) (title p) (thumbnail_filename p) v
    (published_on p) (last_updated p) (url_fragment p) (tags p).
Definition set_url_fragment (v : value) (p : t) : t :=
  Make (id p) (author_id p) (title p) (thumbnail_filename p) (content p)
    (published_on p) (last_updated p) v (tags p).
Definition set_tags (v : value) (p : t) : t :=
  Make (id p) (author_id p) (title p) (thumbnail_filename p) (content p)
    (published_on p) (last_updated p) (url_fragment p) v.

Section Methods.
Context `{Collaborators}.

Definition __init__
    (blog_post_id author_id title content url_fragment tags
       thumbnail_filename last_updated published_on : value) : result t :=
  cleaned ← html_cleaner_clean content;
  Ok (Make blog_post_id author_id title thumbnail_filename cleaned
        published_on last_updated url_fragment tags).

Definition require_valid_thumbnail_filename
    (thumbnail_filename : value) (strict : bool) : result unit :=
  _ ← (if strict
       then raise_if (negb (is_basestring thumbnail_filename))
              (ValidationError
                 ("Expected thumbnail filename to be a string, received: "
                  +:+ py_str thumbnail_filename +:+ "."))
       else Ok tt);
  _ ← raise_if (py_eq thumbnail_filename (VStr ""))
        (ValidationError "Thumbnail filename should not be empty.");
  utils_require_valid_thumbnail_filename thumbnail_filename.

Definition require_valid_blog_post_id (blog_post_id : value) : result unit :=
  match blog_post_id with
  | VStr s =>
      raise_if (negb (String.length s =? 12)%nat)
        (ValidationError "Invalid Blog Post ID.")
  | _ =>
      Raise (ValidationError
               ("Blog Post ID should be a string, received: "
                +:+ py_str blog_post_id))
  end.

Definition require_valid_tags (tags : value) (strict : bool) : result unit :=
  match tags with
  | VList l =>
      _ ← for_tag_in l;
      _ ← (if strict
           then raise_if (length l =? 0)%nat
                  (ValidationError "Atleast one tag should be selected")
           else Ok tt);
      raise_if (negb (length (py_set l) =? length l)%nat)
        (ValidationError "Some tags duplicate each other")
  | _ =>
      Raise (ValidationError
               ("Expected 'tags' to be a list, received: " +:+ py_str tags))
  end.

Definition require_valid_title (title : value) (strict : bool) : result unit :=
  match title with
  | VStr s =>
      let title_limit := MAX_CHARS_IN_BLOG_POST_TITLE in
      _ ← raise_if (title_limit <? String.length s)%nat
            (ValidationError
               ("Blog Post title should at most have "
                +:+ py_str (VInt (Z.of_nat title_limit))
                +:+ " chars, received: " +:+ py_str title));
      if strict then
        _ ← raise_if (py_eq title (VStr ""))
              (ValidationError "Title should not be empty");
        raise_if (negb (Re.re_match VALID_BLOG_POST_TITLE_REGEX s))
          (ValidationError
             ("Title field contains invalid characters. Only words"
              +:+ "(a-zA-Z) separated by spaces are allowed. Received "
              +:+ py_str title))
      else Ok tt
  | _ => Raise (ValidationError "Title should be a string.")
  end.

Definition require_valid_url_fragment (url_fragment : value) : result unit :=
  let url_limit := MAX_CHARS_IN_BLOG_POST_URL_FRAGMENT in
  utils_require_valid_url_fragment
    url_fragment "Blog Post URL Fragment" url_limit.

Definition validate (strict : bool) : method t unit :=
  v ← attr id; _ ← call (require_valid_blog_post_id v);
  v ← attr title; _ ← call (require_valid_title v strict);
  v ← attr tags; _ ← call (require_valid_tags v strict);
  v ← attr thumbnail_filename;
  _ ← call (require_valid_thumbnail_filename v strict);
  v ← attr content;
  _ ← call (raise_if (negb (is_basestring v))
              (ValidationError
                 ("Expected contents to be a string, received: "
                  +:+ py_str v)));
  if strict then
    v ← attr url_fragment; _ ← call (require_valid_url_fragment v);
    v ← attr content;
    call (raise_if (py_eq v (VStr ""))
            (ValidationError "Content can not be empty"))
  else mret tt.

Definition to_dict (self : t) : result (gmap string value) :=
  author_name ← user_services_get_user_id_from_username (author_id self);
  Ok (<["id" := id self]>
      (<["author_name" := author_name]>
      (<["title" := title self]>
      (<["content" := content self]>
      (<["thumbnail_filename" := thumbnail_filename self]>
      (<["tags" := tags self]>
      (<["url_fragment" := url_fragment self]> ∅))))))).

Definition from_dict (blog_post_dict : gmap string value)
    (blog_post_published_on blog_post_last_updated : value) : result t :=
  author_name ← getitem blog_post_dict "author_name";
  author_id ← user_services_get_user_id_from_username author_name;
  a_id ← getitem blog_post_dict "id";
  a_title ← getitem blog_post_dict "title";
  a_content ← getitem blog_post_dict "content";
  a_url_fragment ← getitem blog_post_dict "url_fragment";
  a_tags ← getitem blog_post_dict "tags";
  a_thumbnail_filename ← getitem blog_post_dict "thumbnail_filename";
  __init__ a_id author_id a_title a_content a_url_fragment a_tags
    a_thumbnail_filename blog_post_last_updated blog_post_published_on.

Definition deserialize (json_string : json_text) : result t :=
  blog_post_dict ← json_loads json_string;
  published_on ←
    match blog_post_dict !! "published_on" with
    | Some v => utils_convert_string_to_naive_datetime_object v
    | None => Ok VNone
    end;
  last_updated ←
    match blog_post_dict !! "last_updated" with
    | Some v => utils_convert_string_to_naive_datetime_object v
    | None => Ok VNone
    end;
  from_dict blog_post_dict published_on last_updated.

Definition serialize (self : t) : result json_text :=
  blog_post_dict ← to_dict self;
  blog_post_dict ←
    (if truthy (last_updated self)
     then v ← utils_convert_naive_datetime_to_string (last_updated self);
          Ok (<["last_updated" := v]> blog_post_dict)
     else Ok blog_post_dict);
  blog_post_dict ←
    (if truthy (published_on self)
     then v ← utils_convert_naive_datetime_to_string (published_on self);
          Ok (<["published_on" := v]> blog_post_dict)
     else Ok blog_post_dict);
  json_dumps blog_post_dict.

Definition update_title (new_title : value) : method t unit :=
  _ ← call (require_valid_title new_title true);
  setattr (set_title new_title).

Definition update_url_fragment (new_url_fragment : value) : method t unit :=
  _ ← call (require_valid_url_fragment new_url_fragment);
  setattr (set_url_fragment new_url_fragment).

Definition update_thumbnail_filename
    (new_thumbnail_filename : value) : method t unit :=
  v ← attr thumbnail_filename;
  _ ← call (require_valid_thumbnail_filename v false);
  setattr (set_thumbnail_filename new_thumbnail_filename).

Definition update_content (content : value) : method t unit :=
  cleaned ← call (html_cleaner_clean content);
  setattr (set_content cleaned).

Definition update_tags (tags : value) : method t unit :=
  _ ← call (require_valid_tags tags true);
  setattr (set_tags tags).

End Methods.
End BlogPost.

Module BlogPostSummary.

Record t := Make {
  id : value;
  author_id : value;
  title : value;
  thumbnail_filename : value;
  summary : value;
  published_on : value;
  last_updated : value;
  url_fragment : value;
  tags : value
}.

Section Methods.
Context `{Collaborators}.

Definition __init__
    (blog_post_id author_id title summary url_fragment tags
       thumbnail_filename last_updated published_on : value) : t :=
  Make blog_post_id author_id title thumbnail_filename summary
    published_on last_updated url_fragment tags.

Definition require_valid_thumbnail_filename
    (thumbnail_filename : value) (strict : bool) : result unit :=
  _ ← (if strict
       then raise_if (negb (is_basestring thumbnail_filename))
              (ValidationError
                 ("Expected thumbnail filename to be a string, received: "
                  +:+ py_str thumbnail_filename +:+ "."))
       else Ok tt);
  _ ← raise_if (py_eq thumbnail_filename (VStr ""))
        (ValidationError "Thumbnail filename should not be empty");
  utils_require_valid_thumbnail_filename thumbnail_filename.

Definition require_valid_blog_post_id (blog_post_id : value) : result unit :=
  match blog_post_id with
  | VStr s =>
      raise_if (negb (String.length s =? 12)%nat)
        (ValidationError "Invalid Blog Post ID.")
  | _ =>
      Raise (ValidationError
               ("Blog Post ID should be a string, received: "
                +:+ py_str blog_post_id))
  end.

Definition require_valid_url_fragment (url_fragment : value) : result unit :=
  let url_limit := MAX_CHARS_IN_BLOG_POST_URL_FRAGMENT in
  utils_require_valid_url_fragment
    url_fragment "Blog Post URL Fragment" url_limit.

Definition require_valid_title (title : value) (strict : bool) : result unit :=
  match title with
  | VStr s =>
      let title_limit := MAX_CHARS_IN_BLOG_POST_TITLE in
      _ ← raise_if (title_limit <? String.length s)%nat
            (ValidationError
               ("blog post title should at most have "
                +:+ py_str (VInt (Z.of_nat title_limit))
                +:+ " chars, received: " +:+ py_str title));
      if strict then
        raise_if (py_eq title (VStr ""))
          (ValidationError "Title should not be empty")
      else Ok tt
  | _ => Raise (ValidationError "Title should be a string.")
  end.

Definition require_valid_tags (tags : value) (strict : bool) : result unit :=
  match tags with
  | VList l =>
      _ ← for_tag_in l;
      _ ← (if strict
           then raise_if (length l =? 0)%nat
                  (ValidationError "Atleast one tag should be selected")
           else Ok tt);
      raise_if (negb (length (py_set l) =? length l)%nat)
        (ValidationError "Some tags duplicate each other")
  | _ =>
      Raise (ValidationError
               ("Expected 'tags' to be a list, received: " +:+ py_str tags))
  end.

Definition validate (strict : bool) : method t unit :=
  v ← attr id; _ ← call (require_valid_blog_post_id v);
  v ← attr title; _ ← call (require_valid_title v strict);
  v ← attr tags; _ ← call (require_valid_tags v strict);
  v ← attr thumbnail_filename;
  _ ← call (require_valid_thumbnail_filename v strict);
  v ← attr summary;
  _ ← call (raise_if (negb (is_basestring v))
              (ValidationError
                 ("Expected summary to be a string, received: "
                  +:+ py_str v)));
  if strict then
    v ← attr url_fragment; _ ← call (require_valid_url_fragment v);
    v ← attr summary;
    call (raise_if (py_eq v (VStr ""))
            (ValidationError "Summary can not be empty"))
  else mret tt.

Definition to_dict (self : t) : result (gmap string value) :=
  author_name ← user_services_get_username (author_id self);
  Ok (<["id" := id self]>
      (<["author_name" := author_name]>
      (<["title" := title self]>
      (<["summary" := summary self]>
      (<["thumbnail_filename" := thumbnail_filename self]>
      (<["tags" := tags self]>
      (<["url_fragment" := url_fragment self]> ∅))))))).

Definition serialize (self : t) : result json_text :=
  blog_post_summary_dict ← to_dict self;
  blog_post_summary_dict ←
    (if truthy (last_updated self)
     then v ← utils_convert_naive_datetime_to_string (last_updated self);
          Ok (<["last_updated" := v]> blog_post_summary_dict)
     else Ok blog_post_summary_dict);
  blog_post_summary_dict ←
    (if truthy (published_on self)
     then v ← utils_convert_naive_datetime_to_string (published_on self);
          Ok (<["published_on" := v]> blog_post_summary_dict)
     else Ok blog_post_summary_dict);
  json_dumps blog_post_summary_dict.

End Methods.
End BlogPostSummary.

Module BlogPostRights.

(** [editor_ids] is a [list(str)] and [blog_post_is_published] a [bool],
    as the constructor documents them. *)
Record t := Make {
  id : string;
  editor_ids : list string;
  blog_post_is_published : bool
}.

Definition __init__ (blog_post_id : string) (editor_ids : list string)
    (blog_post_is_published : bool) : t :=
  Make blog_post_id editor_ids blog_post_is_published.

(** [user_id] is a [str or None]. *)
Definition is_editor (self : t) (user_id : value) : bool :=
  py_in user_id (VStr <$> editor_ids self).

End BlogPostRights.

(* ===================================================================== *)
(** ** jobs/blog_validation_error.py *)
(* ===================================================================== *)

Module blog_validation_error.

(** The classes of audit errors in play, and [object]. *)
Inductive class :=
| Object | BaseAuditError | DuplicateBlogTitleError | DuplicateBlogUrlError.

#[global] Instance class_eq_dec : EqDecision class.
Proof. solve_decision. Defined.

(** Method resolution order. *)
Definition mro (c : class) : list class :=
  match c with
  | Object => [Object]
  | BaseAuditError => [BaseAuditError; Object]
  | DuplicateBlogTitleError => [DuplicateBlogTitleError; BaseAuditError; Object]
  | DuplicateBlogUrlError => [DuplicateBlogUrlError; BaseAuditError; Object]
  end.

(** The class that follows [cls] in a resolution order, if [cls] is in it. *)
Fixpoint next_in_mro (cls : class) (order : list class) : option class :=
  match order with
  | [] => None
  | c :: rest =>
      if bool_decide (c = cls) then Some (default Object (head rest))
      else next_in_mro cls rest
  end.

(** [super(cls, self)] for an object [self] of class [self_class]: the
    class after [cls] in the resolution order of [self_class]; a
    [TypeError] when [self] is no instance of [cls]. *)
Definition py_super (cls self_class : class) : result class :=
  match next_in_mro cls (mro self_class) with
  | Some next => Ok next
  | None => Raise (TypeError
                     "super(type, obj): obj must be an instance or subtype of type")
  end.

(** An audit error object. *)
Record t := Make {
  error_class : class;
  message : string;
  model : BlogPostModel
}.

(** Modelled from the spec: [base_validation_errors.BaseAuditError] is not
    among the sources; an audit finding is a record that keeps the message
    and the stored record it was raised for. *)
Definition BaseAuditError___init__ (self_class : class) (message : string)
    (model : BlogPostModel) : t :=
  Make self_class message model.

(** [super(cls, self).__init__(message, model)]: every class in play
    inherits [BaseAuditError.__init__]. *)
Definition super_init (cls self_class : class) (message : string)
    (model : BlogPostModel) : result t :=
  _ ← py_super cls self_class;
  Ok (BaseAuditError___init__ self_class message model).

Section Errors.
Context `{Collaborators}.

(** The [message] local of the two constructors. *)
Definition DuplicateBlogTitleError_message (model : BlogPostModel) : string :=
  "title=" +:+ utils_quoted (model_title model) +:+ " is not unique".

Definition DuplicateBlogUrlError_message (model : BlogPostModel) : string :=
  "url=" +:+ utils_quoted (model_title model) +:+ " is not unique".

Definition DuplicateBlogTitleError___init__ (model : BlogPostModel) : result t :=
  let message := DuplicateBlogTitleError_message model in
  super_init DuplicateBlogTitleError DuplicateBlogTitleError message model.

Definition DuplicateBlogUrlError___init__ (model : BlogPostModel) : result t :=
  let message := DuplicateBlogUrlError_message model in
  super_init DuplicateBlogTitleError DuplicateBlogUrlError message model.

End Errors.
End blog_validation_error.

(* ===================================================================== *)
(** ** jobs/transforms/blog_validations.py *)
(* ===================================================================== *)

Module blog_validations.

(** The names the module binds at its top level: its imports, the tuple
    assignment after them, and the classes and functions it defines. *)
Definition module_globals : list string :=
  [ "absolute_import"; "unicode_literals"; "datetime"; "models"; "feconf";
    "job_utils"; "validation_decorators"; "base_validation";
    "user_validation_errors"; "beam"; "base_models"; "blog_models";
    "ValidateBlogModelDomainObjectsInstances";
    "ValidateTitleMatchesSummaryModelTitle";
    "blog_post_model_relationships";
    "blog_post_summary_model_relationships";
    "blog_post_rights_model_relationships" ].

(** What a name stands for inside a function body. *)
Inductive binding :=
| LocalModel (m : BlogPostModel)
| ModuleLevel.

(** Name lookup: the function's local variables (the ones that hold a
    stored record are listed), then the module's top level; a name bound in
    neither raises [NameError]. *)
Definition load_name (locals : list (string * BlogPostModel))
    (name : string) : result binding :=
  match list_find (fun kv => kv.1 = name) locals with
  | Some (_, (_, m)) => Ok (LocalModel m)
  | None =>
      if bool_decide (name ∈ module_globals) then Ok ModuleLevel
      else Raise (NameError name)
  end.

(** A name used as a stored record. *)
Definition load_model (locals : list (string * BlogPostModel))
    (name : string) : result BlogPostModel :=
  b ← load_name locals name;
  match b with
  | LocalModel m => Ok m
  | ModuleLevel => Raise (AttributeError "object is not a stored record")
  end.

(** [base_validation.VALIDATION_MODES] *)
Inductive VALIDATION_MODES := strict | non_strict.

Section Transforms.
Context `{Collaborators}.
(** [blog_services.get_blog_post_rights(blog_post_id, strict)] *)
Variable blog_services_get_blog_post_rights :
  string -> bool -> result BlogPostRights.t.
(** [blog_validation_errors.ValidateTitleMatchesSummaryTitleError(model)] *)
Variable ValidateTitleMatchesSummaryTitleError :
  BlogPostModel -> result blog_validation_error.t.

(** [ValidateBlogModelDomainObjectsInstances._get_domain_object_validation_type] *)
Definition _get_domain_object_validation_type
    (unused_item : BlogPostModel) : result VALIDATION_MODES :=
  let locals := [("unused_item", unused_item)] in
  _ ← load_name locals "blog_services";
  item ← load_model locals "item";
  blog_post_rights ← blog_services_get_blog_post_rights (model_id item) true;
  if BlogPostRights.blog_post_is_published blog_post_rights
  then _ ← load_name locals "VALIDATION_MODES"; Ok strict
  else _ ← load_name locals "VALIDATION_MODES"; Ok non_strict.

(** [ValidateTitleMatchesSummaryModelTitle.process], reading the stored
    summaries through [BlogPostSummaryModel.get_by_id]. *)
Definition process (summaries : gmap string BlogPostSummaryModel)
    (input_model : BlogPostModel) : generated blog_validation_error.t :=
  let item := job_utils_clone_model input_model in
  let locals := [("input_model", input_model); ("item", item)] in
  if negb (String.eqb (model_title item) "") then
    match summaries !! model_id item with
    | None =>
        Generated []
          (Some (AttributeError "'NoneType' object has no attribute 'title'"))
    | Some summary_model =>
        let blog_post_summary_title := summary_model_title summary_model in
        if negb (String.eqb blog_post_summary_title (model_title item)) then
          match
            (_ ← load_name locals "blog_validation_errors";
             model ← load_model locals "model";
             ValidateTitleMatchesSummaryTitleError model)
          with
          | Ok error => Generated [error] None
          | Raise e => Generated [] (Some e)
          end
        else Generated [] None
    end
  else Generated [] None.

End Transforms.
End blog_validations.

(* ===================================================================== *)
(** ** A small closed world to run the code in *)
(* ===================================================================== *)

(** Concrete collaborators for the worked examples: two users [A] and [B]
    as in the set-up of [blog_services_test], and simple versions of the
    checks and converters of [utils]. No general statement below depends on
    them. *)
Module Examples.

Definition letter (c : ascii) : bool := Re.lower c || Re.upper c.

(** [^[a-zA-Z]+( [a-zA-Z]+)*$]: words separated by single spaces. *)
Definition title_regex : Re.pattern :=
  Re.Pattern
    (Re.Seq (Re.Plus (Re.Class letter))
       (Re.Star (Re.Seq (Re.Class Re.space) (Re.Plus (Re.Class letter)))))
    true.

(** [^[a-z]+(-[a-z]+)*$] *)
Definition url_fragment_regex : Re.pattern :=
  Re.Pattern
    (Re.Seq (Re.Plus (Re.Class Re.lower))
       (Re.Star (Re.Seq (Re.Class (fun c => Ascii.eqb c "-"%char))
                   (Re.Plus (Re.Class Re.lower)))))
    true.

Definition require_valid_url_fragment (name : value) (name_type : string)
    (allowed_length : nat) : result unit :=
  match name with
  | VStr s =>
      _ ← raise_if (String.eqb s "")
            (ValidationError (name_type +:+ " field should not be empty."));
      _ ← raise_if (allowed_length <? String.length s)%nat
            (ValidationError (name_type +:+ " field is too long."));
      raise_if (negb (Re.re_match url_fragment_regex s))
        (ValidationError (name_type +:+ " field contains invalid characters."))
  | _ => Raise (ValidationError (name_type +:+ " field must be a string."))
  end.

Definition ends_with (suffix s : string) : bool :=
  let n := String.length s in
  let k := String.length suffix in
  (k <=? n)%nat && String.eqb (String.substring (n - k) k s) suffix.

Definition require_valid_thumbnail_filename (v : value) : result unit :=
  match v with
  | VNone => Ok tt
  | VStr s =>
      _ ← raise_if (char_in "/"%char s)
            (ValidationError "Thumbnail filename should not include slashes.");
      raise_if (negb (ends_with ".svg" s) || (String.length s <=? 4)%nat)
        (ValidationError "Expected a filename ending in svg.")
  | _ => Raise (ValidationError "Expected thumbnail filename to be a string.")
  end.

(** Users as (user id, username). *)
Definition users : list (string * string) := [("uid_a", "A"); ("uid_b", "B")].

Definition get_user_id_from_username (username : value) : result value :=
  match username with
  | VStr name =>
      match list_find (fun u => u.2 = name) users with
      | Some (_, (uid, _)) => Ok (VStr uid)
      | None => Ok VNone
      end
  | _ => Ok VNone
  end.

Definition get_username (user_id : value) : result value :=
  match user_id with
  | VStr uid =>
      match list_find (fun u => u.1 = uid) users with
      | Some (_, (_, name)) => Ok (VStr name)
      | None => Raise (Exception "User not found.")
      end
  | _ => Raise (Exception "User not found.")
  end.

(** The cleaner leaves the markup of the examples as it is. *)
Definition clean (v : value) : result value :=
  match v with
  | VStr s => Ok (VStr s)
  | _ => Raise (TypeError "argument cannot be of this type, must be text")
  end.

(** Timestamps as [month/day/year, hour:minute:second:microsecond]. *)
Definition datetime_to_string (v : value) : result value :=
  match v with
  | VDatetime d =>
      Ok (VStr (pretty (dt_month d) +:+ "/" +:+ pretty (dt_day d) +:+ "/"
                +:+ pretty (dt_year d) +:+ ", " +:+ pretty (dt_hour d) +:+ ":"
                +:+ pretty (dt_minute d) +:+ ":" +:+ pretty (dt_second d)
                +:+ ":" +:+ pretty (dt_microsecond d)))
  | _ => Raise (AttributeError "object has no attribute 'strftime'")
  end.

Definition digit (c : ascii) : option Z :=
  let n := nat_of_ascii c in
  if (48 <=? n)%nat && (n <=? 57)%nat then Some (Z.of_nat (n - 48)) else None.

(** The decimal numbers of a text, in order. *)
Fixpoint numbers (s : list ascii) (current : option Z) : list Z :=
  match s with
  | [] => match current with Some n => [n] | None => [] end
  | c :: rest =>
      match digit c, current with
      | Some k, Some n => numbers rest (Some (10 * n + k)%Z)
      | Some k, None => numbers rest (Some k)
      | None, Some n => n :: numbers rest None
      | None, None => numbers rest None
      end
  end.

Definition string_to_datetime (v : value) : result value :=
  match v with
  | VStr s =>
      match numbers (list_ascii_of_string s) None with
      | [mo; d; y; h; mi; sec; us] => Ok (VDatetime (Datetime y mo d h mi sec us))
      | _ => Raise (ValueError "time data does not match format")
      end
  | _ => Raise (TypeError "strptime() argument 1 must be str")
  end.

Fixpoint serializable (v : value) : bool :=
  match v with
  | VDatetime _ => false
  | VList l => forallb serializable l
  | _ => true
  end.

(** The JSON text is represented by the document it encodes. *)
Definition dumps (d : gmap string value) : result (gmap string value) :=
  if forallb (fun kv => serializable kv.2) (map_to_list d) then Ok d
  else Raise (TypeError "Object is not JSON serializable").

Fixpoint render (v : value) : string :=
  match v with
  | VNone => "None"
  | VInt n => pretty n
  | VStr s => s
  | VDatetime _ => "datetime.datetime(...)"
  | VList l => "[" +:+ String.concat ", " (map render l) +:+ "]"
  end.

Definition quoted (s : string) : string :=
  String "034"%char (s +:+ String "034"%char EmptyString).

Definition world : Collaborators := {|
  MAX_CHARS_IN_BLOG_POST_TITLE := 40;
  MAX_CHARS_IN_BLOG_POST_URL_FRAGMENT := 65;
  VALID_BLOG_POST_TITLE_REGEX := title_regex;
  utils_require_valid_thumbnail_filename := require_valid_thumbnail_filename;
  utils_require_valid_url_fragment := require_valid_url_fragment;
  utils_convert_naive_datetime_to_string := datetime_to_string;
  utils_convert_string_to_naive_datetime_object := string_to_datetime;
  utils_quoted := quoted;
  html_cleaner_clean := clean;
  user_services_get_user_id_from_username := get_user_id_from_username;
  user_services_get_username := get_username;
  json_text := gmap string value;
  json_dumps := dumps;
  json_loads := Ok;
  job_utils_clone_model := fun m => m;
  py_str := render
|}.

(** Blog post [A] of the tests after [change_dict_two], with its
    generated URL fragment, and the same post with empty content. *)
Definition post_a : BlogPost.t :=
  BlogPost.Make (VStr "blogpostid_a") (VStr "uid_a") (VStr "Sample Title")
    (VStr "thummbnail.svg") (VStr "<p>Hello</p>") VNone VNone
    (VStr "sample-title") (VList [VStr "one"; VStr "two"]).

Definition post_a_empty_content : BlogPost.t :=
  BlogPost.set_content (VStr "") post_a.

(** What [post_a] comes back as from [deserialize (serialize post_a)]. *)
Definition post_a_after_round_trip : BlogPost.t :=
  BlogPost.Make (VStr "blogpostid_a") VNone (VStr "Sample Title")
    (VStr "thummbnail.svg") (VStr "<p>Hello</p>") VNone VNone
    (VStr "sample-title") (VList [VStr "one"; VStr "two"]).

(** The stored form of [post_a], and a summary left with the old title. *)
Definition model_a : BlogPostModel :=
  Build_BlogPostModel "blogpostid_a" "uid_a" "Sample Title" "sample-title".

Definition stale_summaries : gmap string BlogPostSummaryModel :=
  {[ "blogpostid_a" := Build_BlogPostSummaryModel "blogpostid_a" "" ]}.

(** An error constructor for the title audit to call. *)
Definition title_mismatch_error (model : BlogPostModel)
    : result blog_validation_error.t :=
  Ok (blog_validation_error.Make blog_validation_error.BaseAuditError
        "title does not match the title of the summary" model).

End Examples.

(* ===================================================================== *)
(** ** Notions the properties are stated with *)
(* ===================================================================== *)

(** The tag pattern as the specification words it,
    [^[a-z]+( [a-z]+)*$]: lowercase words separated by single spaces. A
    tag matches when the whole of it is a word of this expression. *)
Definition spec_tag_regex : Re.regex :=
  Re.Seq (Re.Plus (Re.Class Re.lower))
    (Re.Star (Re.Seq (Re.Class Re.space) (Re.Plus (Re.Class Re.lower)))).

Definition matches_spec_tag_regex (tag : value) : Prop :=
  exists s, tag = VStr s
            /\ Re.fullmatch spec_tag_regex (list_ascii_of_string s) = true.

(** What is left of [spec_tag_regex] once inside a word. *)
Definition in_word_regex : Re.regex :=
  Re.Seq (Re.Star (Re.Class Re.lower))
    (Re.Star (Re.Seq (Re.Class Re.space) (Re.Plus (Re.Class Re.lower)))).

(** A two-state recogniser for [spec_tag_regex], used to relate the checks
    of the code to the expression: [in_word] tells whether the previous
    character was a letter. *)
Fixpoint words (in_word : bool) (s : list ascii) : bool :=
  match s with
  | [] => in_word
  | c :: s' =>
      if Re.lower c then words true s'
      else if Re.space c && in_word then words false s'
      else false
  end.

(** Two whitespace characters in a row somewhere in [s]. *)
Definition adjacent_whitespace (s : list ascii) : Prop :=
  exists s0 a b s2,
    s = s0 ++ a :: b :: s2 /\ Re.whitespace a = true /\ Re.whitespace b = true.

(** A method that leaves [self] as it found it, whatever its outcome. *)
Definition read_only {S A} (m : method S A) : Prop := forall s, (m s).2 = s.

(** How a timestamp [t] of a post relates to the timestamp [t'] that comes
    back from [deserialize (serialize post)]: an absent key, hence [None],
    for a false one; the two conversions of [utils] otherwise. *)
Definition timestamp_round_trip `{Collaborators} (t t' : value) : Prop :=
  if truthy t
  then exists text,
         utils_convert_naive_datetime_to_string t = Ok text
         /\ utils_convert_string_to_naive_datetime_object text = Ok t'
  else t' = VNone.

(** A check that returns normally or raises a [ValidationError], and
    nothing else. *)
Definition ok_or_validation_error {A} (r : result A) : Prop :=
  is_ok r = true \/ is_validation_error r = true.

(* ===================================================================== *)
(** ** jobs/transforms/blog_validations.py: the relationship generators *)
(* ===================================================================== *)

Module relationships.

(** A stored rights record ([blog_models.BlogPostRightsModel]). *)
Record BlogPostRightsModel := {
  rights_model_id : string;
  rights_model_editor_ids : list string
}.

(** The classes of stored records a relationship may point to. *)
Inductive model_class :=
| BlogPostModel_class
| BlogPostSummaryModel_class
| BlogPostRightsModel_class
| UserSettingsModel_class.

(** What a generator yields: a property of the record and the classes of
    the records it must be the id of. *)
Definition relationship : Type := value * list model_class.

(** A module-level name read inside a function whose only local, [model],
    has another name. *)
Definition load_global (name : string) : result blog_validations.binding :=
  blog_validations.load_name [] name.

(** The third [yield] of each generator builds its tuple from a property of
    the record and from [user_models.UserSettingsModel]. *)
Definition third_yield (property : value) : result relationship :=
  _ ← load_global "user_models";
  Ok (property, [UserSettingsModel_class]).

Definition finish (first second : relationship) (third : result relationship)
    : generated relationship :=
  match third with
  | Ok r => Generated [first; second; r] None
  | Raise e => Generated [first; second] (Some e)
  end.

Definition blog_post_model_relationships (model : BlogPostModel)
    : generated relationship :=
  finish (VStr (model_id model), [BlogPostSummaryModel_class])
         (VStr (model_id model), [BlogPostRightsModel_class])
         (third_yield (VStr (model_author_id model))).

(** The summary record has an author id as well; it is passed in since
    [BlogPostSummaryModel] above keeps only what the title audit reads. *)
Definition blog_post_summary_model_relationships
    (model : BlogPostSummaryModel) (model_author_id : string)
    : generated relationship :=
  finish (VStr (summary_model_id model), [BlogPostModel_class])
         (VStr (summary_model_id model), [BlogPostRightsModel_class])
         (third_yield (VStr model_author_id)).

Definition blog_post_rights_model_relationships (model : BlogPostRightsModel)
    : generated relationship :=
  finish (VStr (rights_model_id model), [BlogPostModel_class])
         (VStr (rights_model_id model), [BlogPostSummaryModel_class])
         (third_yield (VList (VStr <$> rights_model_editor_ids model))).

End relationships.

(* ===================================================================== *)
(** ** core/domain/widget_domain_test.py: the helper predicates *)
(* ===================================================================== *)

Module widget_domain_test.

(** [string.ascii_uppercase] *)
Definition ascii_uppercase : string := "ABCDEFGHIJKLMNOPQRSTUVWXYZ".

(** [[a-zA-Z0-9_]] *)
Definition word_char (c : ascii) : bool :=
  let n := nat_of_ascii c in
  Re.lower c || Re.upper c || ((48 <=? n)%nat && (n <=? 57)%nat)
  || Ascii.eqb c "_"%char.

(** [WidgetDataUnitTests._is_camel_cased], as a truth value:
    [name and (name[0] in string.ascii_uppercase)]. *)
Definition _is_camel_cased (name : string) : bool :=
  match name with
  | EmptyString => false
  | String c _ => char_in c ascii_uppercase
  end.

(** [WidgetDataUnitTests._is_alphanumeric_string]:
    [bool(re.compile("^[a-zA-Z0-9_]+$").match(string))]. *)
Definition _is_alphanumeric_string (string : String.string) : bool :=
  Re.re_match (Re.Pattern (Re.Plus (Re.Class word_char)) true) string.

End widget_domain_test.

(* ===================================================================== *)
(** ** core/controllers/widgets.py *)
(* ===================================================================== *)

Module widgets.

(** How a request ends: a JSON response, the handler's
    [PageNotFoundException], or an exception nobody caught. *)
Inductive outcome (A : Type) :=
| render_json (payload : A)
| PageNotFoundException
| Uncaught (e : exn).
Arguments render_json {A} payload.
Arguments PageNotFoundException {A}.
Arguments Uncaught {A} e.

Section Handlers.
(** A registered widget, the dict describing an instance of it, and
    customization arguments; [widget_registry] and the widgets themselves are
    not among the sources. *)
Variables (widget instance_dict customization_args : Type).
Variable category : widget -> string.
Variable get_widget_instance_dict :
  widget -> customization_args -> result instance_dict.
(** [{}] *)
Variable no_customization_args : customization_args.
Variable get_widgets_of_type : string -> result (list widget).
Variable get_widget_by_id : string -> string -> result widget.
(** [a < b] on instance dicts, which is all [list.sort] uses. *)
Variable lt : instance_dict -> instance_dict -> bool.

(** [widgets[widget.category].append(...)] on a [defaultdict(list)]. *)
Definition append_to (widgets : gmap string (list instance_dict))
    (key : string) (item : instance_dict) : gmap string (list instance_dict) :=
  <[key := default [] (widgets !! key) ++ [item]]> widgets.

(** The loop [for widget in widget_list]. *)
Fixpoint for_widget_in (widget_list : list widget)
    (widgets : gmap string (list instance_dict))
    : result (gmap string (list instance_dict)) :=
  match widget_list with
  | [] => Ok widgets
  | widget :: rest =>
      d ← get_widget_instance_dict widget no_customization_args;
      for_widget_in rest (append_to widgets (category widget) d)
  end.

(** [list.sort()]: a stable sort that compares with [<] only. An element is
    placed before the first element of the sorted rest that is not smaller
    than it. *)
Fixpoint insert_sorted (x : instance_dict) (l : list instance_dict)
    : list instance_dict :=
  match l with
  | [] => [x]
  | y :: l' => if lt y x then y :: insert_sorted x l' else x :: y :: l'
  end.

Definition sort (l : list instance_dict) : list instance_dict :=
  foldr insert_sorted [] l.

(** [WidgetRepositoryHandler.get]; the payload is the value of the one key
    [widgetRepository] of the rendered object. *)
Definition get (widget_type : string)
    : outcome (gmap string (list instance_dict)) :=
  match get_widgets_of_type widget_type with
  | Raise _ => PageNotFoundException
  | Ok widget_list =>
      match for_widget_in widget_list ∅ with
      | Raise e => Uncaught e
      | Ok widgets => render_json (sort <$> widgets)
      end
  end.

(** [WidgetHandler.post], given the request payload. *)
Definition post (payload : gmap string customization_args)
    (widget_type widget_id : string) : outcome instance_dict :=
  let widget_customization_args :=
    default no_customization_args (payload !! "customization_args") in
  match get_widget_by_id widget_type widget_id with
  | Raise e => Uncaught e
  | Ok widget =>
      match get_widget_instance_dict widget widget_customization_args with
      | Raise e => Uncaught e
      | Ok d => render_json d
      end
  end.

(** [a] may stand before [b] in a sorted list: [b] is not smaller. *)
Definition not_after (a b : instance_dict) : Prop := lt b a = false.

(** The instance dicts, in the order of the list, of the widgets of one
    category. *)
Definition dicts_of_category (c : string)
    (widget_list : list widget) (dicts : list instance_dict)
    : list instance_dict :=
  (filter (fun wd => category wd.1 = c) (zip widget_list dicts)).*2.

End Handlers.

Arguments append_to {instance_dict} widgets key item.
Arguments for_widget_in {widget instance_dict customization_args}.
Arguments insert_sorted {instance_dict} lt x l.
Arguments sort {instance_dict} lt l.
Arguments get {widget instance_dict customization_args}.
Arguments post {widget instance_dict customization_args}.
Arguments not_after {instance_dict} lt a b.
Arguments dicts_of_category {widget instance_dict} category c widget_list dicts.

End widgets.

(* ===================================================================== *)
(** ** More of the closed world *)
(* ===================================================================== *)

Module MoreExamples.

(** Post [A] once published: it carries both timestamps. *)
Definition post_a_published : BlogPost.t :=
  BlogPost.Make (VStr "blogpostid_a") (VStr "uid_a") (VStr "Sample Title")
    (VStr "thummbnail.svg") (VStr "<p>Hello</p>")
    (VDatetime (Datetime 2021 7 4 12 30 5 123456))
    (VDatetime (Datetime 2021 7 5 8 0 0 0))
    (VStr "sample-title") (VList [VStr "one"; VStr "two"]).

Definition post_a_published_after_round_trip : BlogPost.t :=
  BlogPost.Make (VStr "blogpostid_a") VNone (VStr "Sample Title")
    (VStr "thummbnail.svg") (VStr "<p>Hello</p>")
    (VDatetime (Datetime 2021 7 4 12 30 5 123456))
    (VDatetime (Datetime 2021 7 5 8 0 0 0))
    (VStr "sample-title") (VList [VStr "one"; VStr "two"]).

(** The summary of a newly created post, as the tests expect it. *)
Definition summary_a : BlogPostSummary.t :=
  BlogPostSummary.__init__ (VStr "blogpostid_a") (VStr "uid_a") (VStr "")
    (VStr "...") (VStr "") (VList []) VNone VNone VNone.

(** A summary whose title agrees with [Examples.model_a]. *)
Definition fresh_summaries : gmap string BlogPostSummaryModel :=
  {[ "blogpostid_a" := Build_BlogPostSummaryModel "blogpostid_a" "Sample Title" ]}.

(** Three widgets in two categories; an instance is described by a
    number. *)
Definition widget_list : list (string * nat) :=
  [("Basic Input", 5); ("Custom", 7); ("Basic Input", 2)].

Definition widgets_of_type (widget_type : string)
    : result (list (string * nat)) :=
  if String.eqb widget_type "interactive" then Ok widget_list
  else Raise (Exception "Invalid widget type")%string.

Definition instance_dict_of (w : string * nat) (args : unit) : result nat :=
  Ok w.2.

End MoreExamples.

(* ===================================================================== *)
(** ** The regular expression matcher is correct *)
(* ===================================================================== *)

Section RegexTheory.
Import Re.

Lemma lang_seq_inv r1 r2 s :
lang (Seq r1 r2) s -> exists s1 s2, s = s1 ++ s2 /\ lang r1 s1 /\ lang r2 s2.
Proof. inversion 1; subst; eauto. Qed.

Lemma lang_alt_inv r1 r2 s : lang (Alt r1 r2) s -> lang r1 s \/ lang r2 s.
Proof. inversion 1; subst; auto. Qed.

Lemma lang_class_inv p s : lang (Class p) s -> exists c, s = [c] /\ p c = true.
Proof. inversion 1; subst; eauto. Qed.

Lemma nullable_spec r : nullable r = true <-> lang r [].
Proof.
induction r; simpl; split; intros Hn;
  try discriminate; try (by constructor); try (by inversion Hn).
- apply andb_true_iff in Hn as [H1 H2].
  change (@nil ascii) with (@nil ascii ++ []). constructor; tauto.
- apply lang_seq_inv in Hn as (s1 & s2 & Heq & H1 & H2). symmetry in Heq.
  apply app_eq_nil in Heq as [-> ->]. apply andb_true_iff; tauto.
- apply orb_true_iff in Hn as [H1|H2]; [apply lang_alt_l|apply lang_alt_r]; tauto.
- apply orb_true_iff. apply lang_alt_inv in Hn. tauto.
Qed.

Lemma lang_star_cons_inv r c s :
lang (Star r) (c :: s) ->
exists s1 s2, s = s1 ++ s2 /\ lang r (c :: s1) /\ lang (Star r) s2.
Proof.
intros Hl. remember (Star r) as r' eqn:Hr. remember (c :: s) as w eqn:Hw.
revert Hr Hw.
induction Hl as [| | | | | |r0 s1 s2 Hl1 _ Hl2 IH2]; intros Hr Hw;
  try discriminate.
injection Hr as ->. destruct s1 as [|c1 s1]; simpl in Hw.
- by apply IH2.
- injection Hw as -> <-. eauto.
Qed.

Lemma deriv_spec r : forall c s, lang (deriv c r) s <-> lang r (c :: s).
Proof.
induction r as [| |p|r1 IH1 r2 IH2|r1 IH1 r2 IH2|r IH]; intros c s; simpl.
- split; inversion 1.
- split; inversion 1.
- split; intros Hl.
  + destruct (p c) eqn:Hp; inversion Hl; subst. by constructor.
  + apply lang_class_inv in Hl as (c' & [= <- ->] & Hc). rewrite Hc. constructor.
- split; intros Hl.
  + destruct (nullable r1) eqn:Hn.
    * apply lang_alt_inv in Hl as [Hs|Hs].
      -- apply lang_seq_inv in Hs as (s1 & s2 & -> & H1 & H2).
         change (c :: s1 ++ s2) with ((c :: s1) ++ s2).
         constructor; auto. by apply IH1.
      -- change (c :: s) with ([] ++ c :: s). constructor.
         ++ by apply nullable_spec.
         ++ by apply IH2.
    * apply lang_seq_inv in Hl as (s1 & s2 & -> & H1 & H2).
      change (c :: s1 ++ s2) with ((c :: s1) ++ s2).
      constructor; auto. by apply IH1.
  + apply lang_seq_inv in Hl as (s1 & s2 & Heq & H1 & H2).
    destruct s1 as [|c1 s1]; simpl in Heq.
    * subst s2. apply nullable_spec in H1 as ->.
      apply lang_alt_r. by apply IH2.
    * injection Heq as <- ->.
      assert (Hd : lang (Seq (deriv c r1) r2) (s1 ++ s2))
        by (constructor; auto; by apply IH1).
      destruct (nullable r1); [by apply lang_alt_l|done].
- split; intros Hl.
  + apply lang_alt_inv in Hl as [Hl|Hl];
      [apply lang_alt_l; by apply IH1|apply lang_alt_r; by apply IH2].
  + apply lang_alt_inv in Hl as [Hl|Hl];
      [apply lang_alt_l; by apply IH1|apply lang_alt_r; by apply IH2].
- split; intros Hl.
  + apply lang_seq_inv in Hl as (s1 & s2 & -> & H1 & H2).
    change (c :: s1 ++ s2) with ((c :: s1) ++ s2).
    constructor; auto. by apply IH.
  + apply lang_star_cons_inv in Hl as (s1 & s2 & -> & H1 & H2).
    constructor; auto. by apply IH.
Qed.

Lemma fullmatch_spec s : forall r, fullmatch r s = true <-> lang r s.
Proof.
induction s as [|c s IH]; intros r; simpl.
- apply nullable_spec.
- rewrite IH. apply deriv_spec.
Qed.

Lemma prefixmatch_spec s : forall r,
prefixmatch r s = true <-> exists s1 s2, s = s1 ++ s2 /\ lang r s1.
Proof.
induction s as [|c s IH]; intros r; simpl; rewrite orb_true_iff.
- split.
  + intros [Hn|?]; [|done]. exists [], []. split; [done|]. by apply nullable_spec.
  + intros (s1 & s2 & Heq & Hl). symmetry in Heq.
    apply app_eq_nil in Heq as [-> ->]. left. by apply nullable_spec.
- rewrite IH. split.
  + intros [Hn|(s1 & s2 & -> & Hl)].
    * exists [], (c :: s). split; [done|]. by apply nullable_spec.
    * exists (c :: s1), s2. split; [done|]. by apply deriv_spec.
  + intros (s1 & s2 & Heq & Hl). destruct s1 as [|c1 s1]; simpl in Heq.
    * left. by apply nullable_spec.
    * injection Heq as <- ->. right. exists s1, s2. split; [done|].
      by apply deriv_spec.
Qed.

Lemma match_dollar_spec s : forall r,
match_dollar r s = true <->
exists s1 s2, s = s1 ++ s2 /\ lang r s1 /\ at_dollar s2 = true.
Proof.
induction s as [|c s IH]; intros r; simpl match_dollar; rewrite orb_true_iff.
- split.
  + intros [Hn|?]; [|done]. apply andb_true_iff in Hn as [Hn _].
    exists [], []. repeat split. by apply nullable_spec.
  + intros (s1 & s2 & Heq & Hl & _). symmetry in Heq.
    apply app_eq_nil in Heq as [-> ->]. left.
    apply andb_true_iff. split; [by apply nullable_spec|done].
- rewrite IH. split.
  + intros [Hn|(s1 & s2 & -> & Hl & Hd)].
    * apply andb_true_iff in Hn as [Hn Hd].
      exists [], (c :: s). repeat split; [by apply nullable_spec|done].
    * exists (c :: s1), s2. repeat split; [by apply deriv_spec|done].
  + intros (s1 & s2 & Heq & Hl & Hd). destruct s1 as [|c1 s1]; simpl in Heq.
    * subst s2. left. apply andb_true_iff. split; [by apply nullable_spec|done].
    * injection Heq as <- ->. right. exists s1, s2.
      repeat split; [by apply deriv_spec|done].
Qed.

Lemma anywhere_spec r s :
anywhere r s = true <-> exists s0 s1 s2, s = s0 ++ s1 ++ s2 /\ lang r s1.
Proof.
induction s as [|c s IH]; cbn [anywhere]; rewrite orb_true_iff, prefixmatch_spec.
- split.
  + intros [(s1 & s2 & Heq & Hl)|?]; [|done]. by exists [], s1, s2.
  + intros (s0 & s1 & s2 & Heq & Hl). left. symmetry in Heq.
    apply app_eq_nil in Heq as [-> Heq]. by exists s1, s2.
- rewrite IH. split.
  + intros [(s1 & s2 & Heq & Hl)|(s0 & s1 & s2 & -> & Hl)].
    * by exists [], s1, s2.
    * by exists (c :: s0), s1, s2.
  + intros (s0 & s1 & s2 & Heq & Hl). destruct s0 as [|c0 s0]; simpl in Heq.
    * left. by exists s1, s2.
    * injection Heq as <- ->. right. by exists s0, s1, s2.
Qed.

Lemma lang_star_class p s : lang (Star (Class p)) s <-> forallb p s = true.
Proof.
split.
- intros Hl. remember (Star (Class p)) as r eqn:Hr. revert Hr.
  induction Hl; intros Hr; try discriminate; [done|].
  injection Hr as ->. apply lang_class_inv in Hl1 as (c & -> & Hc). simpl.
  apply andb_true_iff. auto.
- induction s as [|c s IH]; simpl; intros Hf; [constructor|].
  apply andb_true_iff in Hf as [Hc Hf].
  change (c :: s) with ([c] ++ s). constructor; [by constructor|auto].
Qed.

Lemma lang_plus_class p s :
lang (Plus (Class p)) s <-> s <> [] /\ forallb p s = true.
Proof.
unfold Plus. split.
- intros Hl. apply lang_seq_inv in Hl as (s1 & s2 & -> & H1 & H2).
  apply lang_class_inv in H1 as (c & -> & Hc). apply lang_star_class in H2. simpl.
  split; [done|]. apply andb_true_iff. auto.
- intros [Hne Hf]. destruct s as [|c s]; [done|]. simpl in Hf.
  apply andb_true_iff in Hf as [Hc Hf].
  change (c :: s) with ([c] ++ s). constructor; [by constructor|].
  by apply lang_star_class.
Qed.




Ltac by_ascii_cases c :=
destruct c as [[] [] [] [] [] [] [] []]; vm_compute; congruence.

Lemma char_in_ascii_lowercase c : char_in c ascii_lowercase = lower c.
Proof. by_ascii_cases c. Qed.

Lemma lower_not_whitespace c : lower c = true -> whitespace c = false.
Proof. by_ascii_cases c. Qed.

Lemma lower_not_space c : lower c = true -> space c = false.
Proof. by_ascii_cases c. Qed.

Lemma space_whitespace c : space c = true -> whitespace c = true.
Proof. by_ascii_cases c. Qed.

Lemma newline_not_lower : lower newline = false.
Proof. reflexivity. Qed.

Lemma words_sound s : forall b,
words b s = true -> lang (if b then in_word_regex else spec_tag_regex) s.
Proof.
induction s as [|c s IH]; intros b Hw; simpl in Hw.
- subst b. change (@nil ascii) with (@nil ascii ++ []).
  constructor; constructor.
- destruct (lower c) eqn:Hc.
  + apply IH in Hw. apply lang_seq_inv in Hw as (u & t & -> & Hu & Ht).
    change (c :: u ++ t) with ((c :: u) ++ t).
    assert (Hcu : lang (Star (Class lower)) (c :: u)).
    { change (c :: u) with ([c] ++ u). constructor; [by constructor|done]. }
    destruct b; constructor; try done.
    apply lang_plus_class. apply lang_star_class in Hcu. done.
  + destruct (space c) eqn:Hs; [|done]. destruct b; [|done]. simpl in Hw.
    apply IH in Hw. apply lang_seq_inv in Hw as (w & t & -> & Hw & Ht).
    change (c :: w ++ t) with ([] ++ (c :: w) ++ t).
    constructor; [constructor|]. constructor; [|done].
    change (c :: w) with ([c] ++ w). constructor; [by constructor|done].
Qed.

Lemma words_lower_prefix u t b :
forallb lower u = true ->
words b (u ++ t) = words (match u with [] => b | _ => true end) t.
Proof.
revert b. induction u as [|c u IH]; intros b Hu; simpl in *; [done|].
apply andb_true_iff in Hu as [-> Hu]. rewrite IH by done. by destruct u.
Qed.

Lemma words_star t :
lang (Star (Seq (Class space) (Plus (Class lower)))) t -> words true t = true.
Proof.
intros Hl. remember (Star (Seq (Class space) (Plus (Class lower)))) as r eqn:Hr.
revert Hr. induction Hl as [| | | | | |r0 s1 s2 Hl1 _ Hl2 IH2]; intros Hr;
  try discriminate; [done|].
injection Hr as ->. apply lang_seq_inv in Hl1 as (x & w & -> & Hx & Hw).
apply lang_class_inv in Hx as (c & -> & Hc).
apply lang_plus_class in Hw as [Hne Hw]. rewrite <- app_assoc. simpl.
assert (lower c = false) as ->.
{ destruct (lower c) eqn:E; [|done]. apply lower_not_space in E. congruence. }
rewrite Hc. simpl. rewrite words_lower_prefix by done.
destruct w; [done|]. by apply IH2.
Qed.

Lemma words_complete s : lang spec_tag_regex s -> words false s = true.
Proof.
intros Hl. apply lang_seq_inv in Hl as (w & t & -> & Hw & Ht).
apply lang_plus_class in Hw as [Hne Hw].
rewrite words_lower_prefix by done. destruct w; [done|]. by apply words_star.
Qed.

Lemma words_spec s : words false s = true <-> lang spec_tag_regex s.
Proof. split; [apply (words_sound s false)|apply words_complete]. Qed.

Lemma adjacent_whitespace_cons c s :
adjacent_whitespace s -> adjacent_whitespace (c :: s).
Proof.
intros (s0 & a & b & s2 & -> & Ha & Hb). by exists (c :: s0), a, b, s2.
Qed.

Lemma adjacent_whitespace_cons_inv c s :
adjacent_whitespace (c :: s) ->
(whitespace c = true /\ exists b, head s = Some b /\ whitespace b = true)
\/ adjacent_whitespace s.
Proof.
intros (s0 & a & b & s2 & Heq & Ha & Hb). destruct s0 as [|c0 s0]; simpl in Heq.
- injection Heq as -> ->. left. split; [done|]. by exists b.
- injection Heq as -> ->. right. by exists s0, a, b, s2.
Qed.

Lemma anywhere_adjacent_whitespace s :
anywhere (Seq (Class whitespace) (Plus (Class whitespace))) s = true
<-> adjacent_whitespace s.
Proof.
rewrite anywhere_spec. split.
- intros (s0 & s1 & s2 & -> & Hl).
  apply lang_seq_inv in Hl as (x & w & -> & Hx & Hw).
  apply lang_class_inv in Hx as (a & -> & Ha).
  apply lang_plus_class in Hw as [Hne Hw]. destruct w as [|b w]; [done|].
  simpl in Hw. apply andb_true_iff in Hw as [Hb Hw].
  exists s0, a, b, (w ++ s2). by rewrite <- app_assoc.
- intros (s0 & a & b & s2 & -> & Ha & Hb). exists s0, [a; b], s2.
  split; [done|]. change [a; b] with ([a] ++ [b]).
  constructor; [by constructor|]. apply lang_plus_class. simpl.
  by rewrite Hb.
Qed.

Lemma words_inv s : forall b,
words b s = true ->
forallb (fun c => lower c || space c) s = true
/\ (b = false -> exists a, head s = Some a /\ lower a = true)
/\ (forall x, last s = Some x -> lower x = true)
/\ (s = [] -> b = true)
/\ ~ adjacent_whitespace s.
Proof.
induction s as [|c s IH]; intros b Hw; simpl in Hw.
- subst b. repeat split; try done.
  intros (s0 & a & b & s2 & Heq & _). by destruct s0.
- destruct (lower c) eqn:Hc.
  + destruct (IH _ Hw) as (Hall & _ & Hlast & _ & Hadj). repeat split.
    * simpl. by rewrite Hc.
    * intros _. by exists c.
    * intros x. destruct s as [|c' s]; [by intros [= <-]|]. apply Hlast.
    * done.
    * intros [[Hws _]|Hs]%adjacent_whitespace_cons_inv; [|done].
      apply lower_not_whitespace in Hc. congruence.
  + destruct (space c) eqn:Hs; [|done]. destruct b; [|done]. simpl in Hw.
    destruct (IH _ Hw) as (Hall & Hhead & Hlast & Hnil & Hadj). repeat split.
    * simpl. by rewrite Hs, orb_true_r.
    * done.
    * intros x. destruct s as [|c' s]; [by specialize (Hnil eq_refl)|].
      apply Hlast.
    * intros [[_ (b & Hb & Hws)]|Hx]%adjacent_whitespace_cons_inv; [|done].
      destruct (Hhead eq_refl) as (a & Ha & Hla). rewrite Ha in Hb.
      injection Hb as ->. apply lower_not_whitespace in Hla. congruence.
Qed.

Lemma words_intro s : forall b,
forallb (fun c => lower c || space c) s = true ->
(b = false -> exists a, head s = Some a /\ lower a = true) ->
(forall x, last s = Some x -> lower x = true) ->
(s = [] -> b = true) ->
~ adjacent_whitespace s ->
words b s = true.
Proof.
induction s as [|c s IH]; intros b Hall Hhead Hlast Hnil Hadj; simpl.
- by apply Hnil.
- simpl in Hall. apply andb_true_iff in Hall as [Hc Hall].
  assert (Hlast' : forall x, last s = Some x -> lower x = true).
  { intros x Hx. apply Hlast. by destruct s. }
  assert (Hadj' : ~ adjacent_whitespace s).
  { intros Hs. by apply Hadj, adjacent_whitespace_cons. }
  destruct (lower c) eqn:Hl.
  + apply IH; try done.
  + simpl in Hc. rewrite Hc. destruct b.
    * simpl. apply IH; try done.
      -- intros _. destruct s as [|c' s].
         ++ specialize (Hlast c eq_refl). congruence.
         ++ exists c'. split; [done|]. simpl in Hall.
            apply andb_true_iff in Hall as [Hc' _].
            destruct (lower c') eqn:Hl'; [done|]. simpl in Hc'.
            exfalso. apply Hadj. exists [], c, c', s.
            split; [done|]. split; by apply space_whitespace.
      -- intros ->. specialize (Hlast c eq_refl). congruence.
    * destruct (Hhead eq_refl) as (a & [= <-] & Ha). congruence.
Qed.

(** The checks of the loop body on the characters of a tag. *)
Lemma tag_checks_spec l :
(match_dollar (body TAG_REGEX) l = true
 /\ (exists a b, head l = Some a /\ last l = Some b
                 /\ lower a = true /\ lower b = true)
 /\ anywhere (Seq (Class whitespace) (Plus (Class whitespace))) l = false)
<-> lang spec_tag_regex l.
Proof.
rewrite <- words_spec. split.
- intros (Hm & (a & b & Ha & Hb & Hla & Hlb) & Hadj).
  apply match_dollar_spec in Hm as (s1 & s2 & -> & Hl & Hd).
  apply lang_plus_class in Hl as [Hne Hall].
  assert (s2 = []) as ->.
  { destruct s2 as [|c [|]]; [done| |done]. simpl in Hd.
    apply Ascii.eqb_eq in Hd as ->. rewrite last_snoc in Hb.
    injection Hb as <-. by rewrite newline_not_lower in Hlb. }
  rewrite app_nil_r in *. apply words_intro; try done.
  + intros _. by exists a.
  + intros x Hx. rewrite Hx in Hb. by injection Hb as ->.
  + intros Hx. apply anywhere_adjacent_whitespace in Hx. congruence.
- intros Hw. apply words_inv in Hw as (Hall & Hhead & Hlast & Hnil & Hadj).
  destruct (Hhead eq_refl) as (a & Ha & Hla).
  destruct (last l) as [b|] eqn:Hb.
  2:{ apply last_None in Hb. subst l. done. }
  split; [|split].
  + apply match_dollar_spec. exists l, []. rewrite app_nil_r.
    split; [done|]. split; [|done]. apply lang_plus_class.
    split; [|done]. intros ->. done.
  + exists a, b. repeat split; try done. by apply Hlast.
  + destruct (anywhere _ l) eqn:E; [|done].
    apply anywhere_adjacent_whitespace in E. done.
Qed.
End RegexTheory.

Lemma datetime_eqb_spec a b : datetime_eqb a b = true <-> a = b.
Proof.
  destruct a, b. unfold datetime_eqb. simpl.
  rewrite !andb_true_iff, !Z.eqb_eq. split.
  - intros [[[[[[-> ->] ->] ->] ->] ->] ->]. done.
  - intros [= -> -> -> -> -> -> ->]. done.
Qed.

Lemma py_eq_spec : forall a b, py_eq a b = true <-> a = b.
Proof.
  fix IH 1. intros a b. destruct a as [|m|s|d|l], b as [|n|t|e|k]; simpl;
    try (split; [discriminate|discriminate]); try done.
  - rewrite Z.eqb_eq. split; [by intros ->|by intros [= ->]].
  - rewrite String.eqb_eq. split; [by intros ->|by intros [= ->]].
  - rewrite datetime_eqb_spec. split; [by intros ->|by intros [= ->]].
  - revert k. induction l as [|x l IHl]; intros [|y k];
      try (split; [discriminate|discriminate]); try done.
    rewrite andb_true_iff, (IH x y), IHl.
    split; [by intros [-> [= ->]]|by intros [= -> ->]].
Qed.

Lemma py_in_spec x l : py_in x l = true <-> x ∈ l.
Proof.
  unfold py_in. rewrite existsb_exists, list_elem_of_In. split.
  - intros (y & Hy & Heq). apply py_eq_spec in Heq. by subst.
  - intros Hx. exists x. split; [done|]. by apply py_eq_spec.
Qed.

Lemma py_set_length_le l : length (py_set l) <= length l.
Proof. induction l as [|x l IH]; simpl; [done|]. destruct (py_in x l); simpl; lia. Qed.

Lemma py_set_length l : length (py_set l) = length l <-> NoDup l.
Proof.
  induction l as [|x l IH]; simpl.
  - split; [constructor|done].
  - rewrite NoDup_cons. destruct (py_in x l) eqn:Hin.
    + apply py_in_spec in Hin. pose proof (py_set_length_le l). split; [lia|tauto].
    + assert (x ∉ l) by (rewrite <- py_in_spec; congruence).
      simpl. rewrite <- IH. split; [intros [= ->]; tauto|intros [_ ->]; done].
Qed.

Section TagRules.
Context `{Collaborators}.
Import Re.

Lemma check_tag_str s :
  check_tag (VStr s) = Ok tt <-> lang spec_tag_regex (list_ascii_of_string s).
Proof.
  rewrite <- tag_checks_spec. unfold check_tag, re_match, re_search. simpl.
  set (l := list_ascii_of_string s).
  destruct (match_dollar _ l) eqn:Hm; simpl; [|split; [done|intros [? _]; done]].
  destruct (head l) as [a|] eqn:Ha, (last l) as [b|] eqn:Hb; simpl;
    try (split; [done|by intros (_ & (? & ? & ? & ? & _) & _)]).
  rewrite !char_in_ascii_lowercase.
  destruct (lower a) eqn:Hla, (lower b) eqn:Hlb; simpl;
    try (split; [done|intros (_ & (? & ? & [= <-] & [= <-] & ? & ?) & _); congruence]).
  destruct (anywhere _ l) eqn:Hadj; simpl.
  - split; [done|by intros (_ & _ & ?)].
  - split; [|done]. intros _. split; [done|]. split; [|done]. by exists a, b.
Qed.

Lemma check_tag_outcome tag :
  check_tag tag = Ok tt \/ exists msg, check_tag tag = Raise (ValidationError msg).
Proof.
  destruct tag as [| |s| |]; simpl; eauto.
  unfold re_match, re_search. simpl.
  set (l := list_ascii_of_string s).
  destruct (match_dollar _ l) eqn:Hm; simpl; [|eauto].
  assert (Hne : l <> []).
  { apply match_dollar_spec in Hm as (s1 & s2 & Hl & Hs1 & _).
    apply lang_plus_class in Hs1 as [Hne _]. rewrite Hl. by destruct s1. }
  destruct (head l) as [a|] eqn:Ha; [|by apply head_None in Ha].
  destruct (last l) as [b|] eqn:Hb; [|by apply last_None in Hb].
  simpl. destruct (_ || _); simpl; [eauto|].
  destruct (anywhere _ l); simpl; eauto.
Qed.

Lemma check_tag_ok tag : check_tag tag = Ok tt <-> matches_spec_tag_regex tag.
Proof.
  unfold matches_spec_tag_regex. split.
  - destruct tag as [| |s| |]; try done. intros Hs. exists s.
    split; [done|]. by apply fullmatch_spec, check_tag_str.
  - intros (s & -> & Hs). by apply check_tag_str, fullmatch_spec.
Qed.

Lemma for_tag_in_ok l :
  for_tag_in l = Ok tt <-> Forall matches_spec_tag_regex l.
Proof.
  induction l as [|tag l IH]; simpl.
  - split; [constructor|done].
  - rewrite Forall_cons, <- IH, <- check_tag_ok.
    destruct (check_tag tag) as [[]|e]; simpl; split; try tauto; try done.
Qed.

Lemma for_tag_in_outcome l :
  for_tag_in l = Ok tt \/ exists msg, for_tag_in l = Raise (ValidationError msg).
Proof.
  induction l as [|tag l IH]; simpl; [by left|].
  destruct (check_tag_outcome tag) as [->|[msg ->]]; simpl; eauto.
Qed.

(** C2. [BlogPost.require_valid_tags] returns normally exactly when its
    argument is a list, every element of it is a string that matches
    [^[a-z]+( [a-z]+)*$] as a whole, no element occurs twice and, in
    strict mode, the list is not empty; in every other case it raises a
    [ValidationError]. *)
Theorem require_valid_tags_iff (tags : value) (strict : bool) :
  (BlogPost.require_valid_tags tags strict = Ok tt <->
     exists l, tags = VList l
       /\ Forall matches_spec_tag_regex l
       /\ NoDup l
       /\ (strict = true -> l <> []))
  /\ (BlogPost.require_valid_tags tags strict = Ok tt
      \/ exists msg,
           BlogPost.require_valid_tags tags strict = Raise (ValidationError msg)).
Proof.
  destruct tags as [| | | |l]; simpl;
    try (split; [split; [done|by intros (? & ? & _)]|eauto]).
  pose proof (for_tag_in_ok l) as Hok.
  destruct (for_tag_in_outcome l) as [Hl|[msg Hl]]; rewrite Hl in *; simpl.
  { assert (HF : Forall matches_spec_tag_regex l) by tauto.
    assert (Hdup : raise_if (negb (length (py_set l) =? length l)%nat)
                     (ValidationError "Some tags duplicate each other") = Ok tt
                   <-> NoDup l).
    { rewrite <- py_set_length. unfold raise_if.
      destruct (Nat.eqb_spec (length (py_set l)) (length l)); simpl; split; done. }
    assert (Hout : forall e c, raise_if c (ValidationError e) = Ok tt
              \/ exists msg,
                   raise_if c (ValidationError e) = Raise (ValidationError msg)).
    { intros e []; simpl; eauto. }
    destruct strict; simpl.
    - destruct l as [|tag l]; simpl.
      + split; [|eauto]. split; [done|]. intros (? & [= <-] & _ & _ & Hne).
        by specialize (Hne eq_refl).
      + split; [|apply Hout]. rewrite Hdup. split.
        * intros Hnd. by exists (tag :: l).
        * by intros (? & [= <-] & _ & Hnd & _).
    - split; [|apply Hout]. rewrite Hdup. split.
      + intros Hnd. by exists l.
      + by intros (? & [= <-] & _ & Hnd & _). }
  split; [|eauto]. split; [done|]. intros (? & [= <-] & HF & _).
  by apply Hok in HF.
Qed.
End TagRules.

(* ===================================================================== *)
(** ** Methods that only read [self] *)
(* ===================================================================== *)

Section ReadOnly.
Context {S : Type}.

Lemma read_only_ret {A} (a : A) : read_only (mret a : method S A).
Proof. by intros s. Qed.

Lemma read_only_attr {A} (f : S -> A) : read_only (attr f).
Proof. by intros s. Qed.

Lemma read_only_call {A} (r : result A) : read_only (call r : method S A).
Proof. by intros s. Qed.

Lemma read_only_bind {A B} (m : method S A) (f : A -> method S B) :
  read_only m -> (forall a, read_only (f a)) -> read_only (m ≫= f).
Proof.
  intros Hm Hf s. unfold mbind, method_bind. specialize (Hm s).
  destruct (m s) as [[a|e] s']; simpl in *; subst; [apply Hf|done].
Qed.
End ReadOnly.

Create HintDb read_only.
#[export] Hint Resolve read_only_ret read_only_attr read_only_call : read_only.

Ltac read_only_steps :=
  repeat first
    [ apply read_only_bind; [solve [auto with read_only]|intros ?]
    | solve [auto with read_only] ].

(* ===================================================================== *)
(** ** The blog post and its summary *)
(* ===================================================================== *)

Section DomainObjects.
Context `{Collaborators}.

Lemma BlogPost_validate_read_only strict : read_only (BlogPost.validate strict).
Proof. unfold BlogPost.validate. destruct strict; read_only_steps. Qed.

Lemma BlogPostSummary_validate_read_only strict :
  read_only (BlogPostSummary.validate strict).
Proof. unfold BlogPostSummary.validate. destruct strict; read_only_steps. Qed.

(** C10. In either mode, [validate] leaves a blog post, and a blog post
    summary, exactly as it found it, whether it returns or raises: the
    state after the call is the state before it. *)
Theorem validate_leaves_fields_unchanged (strict : bool) :
  (forall post : BlogPost.t, (BlogPost.validate strict post).2 = post)
  /\ (forall summary : BlogPostSummary.t,
        (BlogPostSummary.validate strict summary).2 = summary).
Proof.
  split;
    [apply BlogPost_validate_read_only|apply BlogPostSummary_validate_read_only].
Qed.

(** C8. A post whose content is the empty string and whose id, title,
    tags, thumbnail filename and URL fragment pass their strict checks:
    [validate(strict=True)] raises [ValidationError('Content can not be
    empty')] and leaves the post unchanged. *)
Theorem validate_strict_empty_content (post : BlogPost.t) :
  BlogPost.content post = VStr "" ->
  BlogPost.require_valid_blog_post_id (BlogPost.id post) = Ok tt ->
  BlogPost.require_valid_title (BlogPost.title post) true = Ok tt ->
  BlogPost.require_valid_tags (BlogPost.tags post) true = Ok tt ->
  BlogPost.require_valid_thumbnail_filename
    (BlogPost.thumbnail_filename post) true = Ok tt ->
  BlogPost.require_valid_url_fragment (BlogPost.url_fragment post) = Ok tt ->
  BlogPost.validate true post
  = (Raise (ValidationError "Content can not be empty"), post).
Proof.
  intros Hcontent Hid Htitle Htags Hthumb Hurl.
  unfold BlogPost.validate, mbind, method_bind, attr, call.
  rewrite Hid, Htitle, Htags, Hthumb, Hcontent. simpl. by rewrite Hurl.
Qed.

(** C3, as amended. [update_title] and [update_tags] check the new value
    with the strict rules of their field, [update_url_fragment] checks the
    new URL fragment; each of them writes its one field when the check
    passes and otherwise raises the error of the check and writes nothing.
    [update_content] checks nothing: it writes what [html_cleaner.clean]
    returns for the new content. *)
Theorem update_operations (post : BlogPost.t) (v : value) :
  BlogPost.update_title v post
    = match BlogPost.require_valid_title v true with
      | Ok _ => (Ok tt, BlogPost.set_title v post)
      | Raise e => (Raise e, post)
      end
  /\ BlogPost.update_tags v post
    = match BlogPost.require_valid_tags v true with
      | Ok _ => (Ok tt, BlogPost.set_tags v post)
      | Raise e => (Raise e, post)
      end
  /\ BlogPost.update_url_fragment v post
    = match BlogPost.require_valid_url_fragment v with
      | Ok _ => (Ok tt, BlogPost.set_url_fragment v post)
      | Raise e => (Raise e, post)
      end
  /\ BlogPost.update_content v post
    = match html_cleaner_clean v with
      | Ok cleaned => (Ok tt, BlogPost.set_content cleaned post)
      | Raise e => (Raise e, post)
      end.
Proof.
  unfold BlogPost.update_title, BlogPost.update_tags,
    BlogPost.update_url_fragment, BlogPost.update_content,
    mbind, method_bind, call, setattr.
  repeat split.
Qed.

(** [update_thumbnail_filename] checks the filename the post already has,
    with the relaxed rules, and then writes the new one unchecked. *)
Lemma update_thumbnail_filename_checks_old_value (post : BlogPost.t) (v : value) :
  BlogPost.update_thumbnail_filename v post
  = match BlogPost.require_valid_thumbnail_filename
            (BlogPost.thumbnail_filename post) false with
    | Ok _ => (Ok tt, BlogPost.set_thumbnail_filename v post)
    | Raise e => (Raise e, post)
    end.
Proof.
  unfold BlogPost.update_thumbnail_filename, mbind, method_bind, attr, call,
    setattr.
  by destruct (BlogPost.require_valid_thumbnail_filename _ false).
Qed.

(** C4. A title within the length limit, not empty, that the title
    pattern rejects: in strict mode the summary's check accepts it and the
    post's check raises a [ValidationError]. The two title checks differ. *)
Theorem summary_title_skips_pattern (s : string) :
  String.length s <= MAX_CHARS_IN_BLOG_POST_TITLE ->
  s <> "" ->
  Re.re_match VALID_BLOG_POST_TITLE_REGEX s = false ->
  BlogPostSummary.require_valid_title (VStr s) true = Ok tt
  /\ exists msg,
       BlogPost.require_valid_title (VStr s) true = Raise (ValidationError msg).
Proof.
  intros Hlen Hne Hre.
  unfold BlogPostSummary.require_valid_title, BlogPost.require_valid_title.
  assert ((MAX_CHARS_IN_BLOG_POST_TITLE <? String.length s)%nat = false) as ->
    by (apply Nat.ltb_ge; lia).
  assert (py_eq (VStr s) (VStr "") = false) as ->
    by (simpl; by apply String.eqb_neq).
  rewrite Hre. simpl. eauto.
Qed.

(** Where the summary does mirror the post: the tag check is the same
    function, the thumbnail check accepts the same values, and so does the
    title check in relaxed mode; in strict mode the summary accepts every
    title the post accepts. *)
Lemma summary_tags_mirror_post tags strict :
  BlogPostSummary.require_valid_tags tags strict
  = BlogPost.require_valid_tags tags strict.
Proof. reflexivity. Qed.

Lemma summary_thumbnail_mirrors_post v strict :
  is_ok (BlogPostSummary.require_valid_thumbnail_filename v strict)
  = is_ok (BlogPost.require_valid_thumbnail_filename v strict).
Proof.
  unfold BlogPostSummary.require_valid_thumbnail_filename,
    BlogPost.require_valid_thumbnail_filename.
  destruct strict, (is_basestring v), (py_eq v (VStr "")); reflexivity.
Qed.

Lemma summary_title_mirrors_post_when_relaxed v :
  is_ok (BlogPostSummary.require_valid_title v false)
  = is_ok (BlogPost.require_valid_title v false).
Proof.
  destruct v; try reflexivity. simpl.
  by destruct (_ <? _)%nat.
Qed.

Lemma post_title_accepted_by_summary v strict :
  BlogPost.require_valid_title v strict = Ok tt ->
  BlogPostSummary.require_valid_title v strict = Ok tt.
Proof.
  destruct v; try done. simpl. destruct (_ <? _)%nat; [done|]. simpl.
  destruct strict; [|done]. by destruct (String.eqb _ _).
Qed.

End DomainObjects.

(** C9. [is_editor] answers true exactly for a user id that is one of the
    editor ids of the rights object, and false for [None]. *)
Theorem is_editor_spec (rights : BlogPostRights.t) (user_id : value) :
  (BlogPostRights.is_editor rights user_id = true <->
     exists uid, user_id = VStr uid /\ uid ∈ BlogPostRights.editor_ids rights)
  /\ BlogPostRights.is_editor rights VNone = false.
Proof.
  unfold BlogPostRights.is_editor. split.
  - rewrite py_in_spec, list_elem_of_fmap. split.
    + intros (uid & -> & Hin). eauto.
    + intros (uid & -> & Hin). eauto.
  - destruct (py_in VNone _) eqn:E; [|done].
    apply py_in_spec, list_elem_of_fmap in E as (uid & [=] & _).
Qed.

(* ===================================================================== *)
(** ** Serialization of a blog post *)
(* ===================================================================== *)

Section Serialization.
Context `{Collaborators}.

Lemma getitem_Ok d k v : getitem d k = Ok v <-> d !! k = Some v.
Proof. unfold getitem. destruct (d !! k); split; congruence. Qed.

(** The dictionary that [serialize] hands to [json.dumps]. *)
Lemma serialize_inv post w :
  BlogPost.serialize post = Ok w ->
  exists name d,
    user_services_get_user_id_from_username (BlogPost.author_id post) = Ok name
    /\ json_dumps d = Ok w
    /\ d !! "author_name" = Some name
    /\ d !! "id" = Some (BlogPost.id post)
    /\ d !! "title" = Some (BlogPost.title post)
    /\ d !! "content" = Some (BlogPost.content post)
    /\ d !! "thumbnail_filename" = Some (BlogPost.thumbnail_filename post)
    /\ d !! "tags" = Some (BlogPost.tags post)
    /\ d !! "url_fragment" = Some (BlogPost.url_fragment post)
    /\ (if truthy (BlogPost.last_updated post)
        then exists text,
               utils_convert_naive_datetime_to_string (BlogPost.last_updated post)
                 = Ok text
               /\ d !! "last_updated" = Some text
        else d !! "last_updated" = None)
    /\ (if truthy (BlogPost.published_on post)
        then exists text,
               utils_convert_naive_datetime_to_string (BlogPost.published_on post)
                 = Ok text
               /\ d !! "published_on" = Some text
        else d !! "published_on" = None).
Proof.
  unfold BlogPost.serialize, BlogPost.to_dict.
  destruct (user_services_get_user_id_from_username _) as [name|e]; [|done].
  simpl.
  destruct (truthy (BlogPost.last_updated post)),
           (truthy (BlogPost.published_on post)); simpl;
    repeat (match goal with
            | |- context [utils_convert_naive_datetime_to_string ?t] =>
                destruct (utils_convert_naive_datetime_to_string t) eqn:?;
                [|done]; simpl
            end);
    intros Hw; eexists _, _; (split; [done|]); (split; [exact Hw|]);
    repeat split; try (by simplify_map_eq); eexists; split; try done;
    by simplify_map_eq.
Qed.

Lemma from_dict_inv d published_on last_updated post' :
  BlogPost.from_dict d published_on last_updated = Ok post' ->
  exists name content,
    d !! "author_name" = Some name
    /\ user_services_get_user_id_from_username name
       = Ok (BlogPost.author_id post')
    /\ d !! "id" = Some (BlogPost.id post')
    /\ d !! "title" = Some (BlogPost.title post')
    /\ d !! "content" = Some content
    /\ html_cleaner_clean content = Ok (BlogPost.content post')
    /\ d !! "thumbnail_filename" = Some (BlogPost.thumbnail_filename post')
    /\ d !! "tags" = Some (BlogPost.tags post')
    /\ d !! "url_fragment" = Some (BlogPost.url_fragment post')
    /\ BlogPost.last_updated post' = last_updated
    /\ BlogPost.published_on post' = published_on.
Proof.
  unfold BlogPost.from_dict, BlogPost.__init__.
  destruct (getitem d "author_name") as [name|] eqn:Hname; [|done].
  simpl.
  destruct (user_services_get_user_id_from_username name) as [a|] eqn:Ha;
    [|done].
  simpl.
  repeat (match goal with
          | |- context [getitem d ?k] =>
              destruct (getitem d k) eqn:?; [|done]; simpl
          end).
  destruct (html_cleaner_clean _) eqn:Hclean; [|done]. simpl.
  intros [= <-]. simpl. eexists _, _.
  repeat split; try (by apply getitem_Ok); done.
Qed.

Lemma deserialize_inv w post' :
  BlogPost.deserialize w = Ok post' ->
  exists d,
    json_loads w = Ok d
    /\ BlogPost.from_dict d (BlogPost.published_on post')
         (BlogPost.last_updated post') = Ok post'
    /\ match d !! "published_on" with
       | Some v => utils_convert_string_to_naive_datetime_object v
                   = Ok (BlogPost.published_on post')
       | None => BlogPost.published_on post' = VNone
       end
    /\ match d !! "last_updated" with
       | Some v => utils_convert_string_to_naive_datetime_object v
                   = Ok (BlogPost.last_updated post')
       | None => BlogPost.last_updated post' = VNone
       end.
Proof.
  unfold BlogPost.deserialize.
  destruct (json_loads w) as [d|]; [|done]. simpl.
  set (p := match d !! "published_on" with Some _ => _ | None => _ end).
  set (l := match d !! "last_updated" with Some _ => _ | None => _ end).
  destruct p as [p'|] eqn:Hp; [|done]. simpl.
  destruct l as [l'|] eqn:Hl; [|done]. simpl.
  intros Hfrom. pose proof Hfrom as Hfields.
  apply from_dict_inv in Hfields
    as (_ & _ & _ & _ & _ & _ & _ & _ & _ & _ & _ & <- & <-).
  exists d. split; [done|]. split; [done|]. subst p l.
  split.
  - destruct (d !! "published_on"); [done|]. by injection Hp as <-.
  - destruct (d !! "last_updated"); [done|]. by injection Hl as <-.
Qed.

(** C1. Whenever [deserialize (serialize post)] returns a post, the author
    id of that post is [get_user_id_from_username] applied twice to the
    author id of the original: [to_dict] stores, under [author_name], the
    result of looking the author id up as if it were a username, and
    [from_dict] looks that result up once more. The original author id is
    not what comes back. *)
Theorem deserialize_serialize_author_id
    (post post' : BlogPost.t) (w : json_text) :
  (forall d w, json_dumps d = Ok w -> json_loads w = Ok d) ->
  BlogPost.serialize post = Ok w ->
  BlogPost.deserialize w = Ok post' ->
  exists name,
    user_services_get_user_id_from_username (BlogPost.author_id post) = Ok name
    /\ user_services_get_user_id_from_username name
       = Ok (BlogPost.author_id post').
Proof.
  intros Hjson Hser Hdes.
  apply serialize_inv in Hser as (name & d & Hname & Hw & Hd & _).
  apply Hjson in Hw.
  apply deserialize_inv in Hdes as (d' & Hw' & Hfrom & _).
  rewrite Hw in Hw'. injection Hw' as <-.
  apply from_dict_inv in Hfrom as (name' & _ & Hd' & Hname' & _).
  rewrite Hd in Hd'. injection Hd' as <-. by exists name.
Qed.

(** X8. When [deserialize (serialize post)] returns a post, its id, title,
    thumbnail filename, tags and URL fragment are those of the original, its
    content is the original content cleaned once more, and each timestamp
    is the original taken through the two conversions of [utils], or [None]
    when the original was false and its key was left out. *)
Lemma deserialize_serialize_other_fields
    (post post' : BlogPost.t) (w : json_text) :
  (forall d w, json_dumps d = Ok w -> json_loads w = Ok d) ->
  BlogPost.serialize post = Ok w ->
  BlogPost.deserialize w = Ok post' ->
  BlogPost.id post' = BlogPost.id post
  /\ BlogPost.title post' = BlogPost.title post
  /\ html_cleaner_clean (BlogPost.content post) = Ok (BlogPost.content post')
  /\ BlogPost.thumbnail_filename post' = BlogPost.thumbnail_filename post
  /\ BlogPost.tags post' = BlogPost.tags post
  /\ BlogPost.url_fragment post' = BlogPost.url_fragment post
  /\ timestamp_round_trip (BlogPost.last_updated post)
       (BlogPost.last_updated post')
  /\ timestamp_round_trip (BlogPost.published_on post)
       (BlogPost.published_on post').
Proof.
  intros Hjson Hser Hdes.
  apply serialize_inv in Hser
    as (name & d & _ & Hw & _ & Hid & Htitle & Hcontent & Hthumb & Htags
        & Hurl & Hlast & Hpub).
  apply Hjson in Hw.
  apply deserialize_inv in Hdes as (d' & Hw' & Hfrom & Hpub' & Hlast').
  rewrite Hw in Hw'. injection Hw' as <-.
  apply from_dict_inv in Hfrom
    as (_ & content & _ & _ & Hid' & Htitle' & Hcontent' & Hclean & Hthumb'
        & Htags' & Hurl' & _ & _).
  unfold timestamp_round_trip.
  repeat split; try congruence.
  - destruct (truthy (BlogPost.last_updated post)).
    + destruct Hlast as (text & Hto & Hd). rewrite Hd in Hlast'. eauto.
    + by rewrite Hlast in Hlast'.
  - destruct (truthy (BlogPost.published_on post)).
    + destruct Hpub as (text & Hto & Hd). rewrite Hd in Hpub'. eauto.
    + by rewrite Hpub in Hpub'.
Qed.
End Serialization.

(* ===================================================================== *)
(** ** The audit transforms and their errors *)
(* ===================================================================== *)

Section Audit.
Context `{Collaborators}.
Import blog_validations blog_validation_error.

(** C6. Whatever the stored record and whatever its rights record says,
    [_get_domain_object_validation_type] raises [NameError]: its body
    reads [blog_services], which the module never imports, and [item],
    while its parameter is called [unused_item]. No validation mode is
    ever selected. *)
Theorem validation_type_raises_NameError
    (get_blog_post_rights : string -> bool -> result BlogPostRights.t)
    (item : BlogPostModel) :
  _get_domain_object_validation_type get_blog_post_rights item
    = Raise (NameError "blog_services")
  /\ load_model [("unused_item", item)] "item" = Raise (NameError "item").
Proof. split; reflexivity. Qed.

Lemma process_raises_on_mismatch mk_error summaries input_model summary_model :
  model_title (job_utils_clone_model input_model) <> "" ->
  summaries !! model_id (job_utils_clone_model input_model) = Some summary_model ->
  summary_model_title summary_model
    <> model_title (job_utils_clone_model input_model) ->
  process mk_error summaries input_model
    = Generated [] (Some (NameError "blog_validation_errors")).
Proof.
  intros Hne Hsum Hdiff. unfold process.
  apply String.eqb_neq in Hne as ->. rewrite Hsum. simpl.
  apply String.eqb_neq in Hdiff as ->. reflexivity.
Qed.

(** C5. A stored post with a title that is not empty and differs from the
    title of its stored summary: [process] yields nothing and ends with
    [NameError], because the error it sets out to yield is built from
    [blog_validation_errors], which the module never imports, applied to
    [model], which is no variable of the function. *)
Theorem process_title_mismatch mk_error summaries input_model summary_model :
  model_title (job_utils_clone_model input_model) <> "" ->
  summaries !! model_id (job_utils_clone_model input_model) = Some summary_model ->
  summary_model_title summary_model
    <> model_title (job_utils_clone_model input_model) ->
  yielded (process mk_error summaries input_model) = []
  /\ ended_by (process mk_error summaries input_model)
     = Some (NameError "blog_validation_errors")
  /\ load_model [("input_model", input_model);
                 ("item", job_utils_clone_model input_model)] "model"
     = Raise (NameError "model").
Proof.
  intros Hne Hsum Hdiff.
  rewrite (process_raises_on_mismatch _ _ _ _ Hne Hsum Hdiff). done.
Qed.

(** The two quiet cases of the title audit. *)
Lemma process_empty_title mk_error summaries input_model :
  model_title (job_utils_clone_model input_model) = "" ->
  process mk_error summaries input_model = Generated [] None.
Proof. intros Ht. unfold process. by rewrite Ht. Qed.

Lemma process_matching_title mk_error summaries input_model summary_model :
  summaries !! model_id (job_utils_clone_model input_model) = Some summary_model ->
  summary_model_title summary_model
    = model_title (job_utils_clone_model input_model) ->
  process mk_error summaries input_model = Generated [] None.
Proof.
  intros Hsum Heq. unfold process. rewrite Hsum, Heq, String.eqb_refl. simpl.
  by destruct (negb _).
Qed.

(** C7. Constructing a [DuplicateBlogUrlError] raises [TypeError], since
    its constructor calls [super] with [DuplicateBlogTitleError], of which
    the new object is no instance; and the message it has prepared by then
    quotes the title of the record, not its URL fragment. *)
Theorem DuplicateBlogUrlError_construction (model : BlogPostModel) :
  DuplicateBlogUrlError___init__ model
    = Raise (TypeError
               "super(type, obj): obj must be an instance or subtype of type")
  /\ DuplicateBlogUrlError_message model
     = "url=" +:+ utils_quoted (model_title model) +:+ " is not unique".
Proof. split; reflexivity. Qed.

(** The sibling class is constructed as intended. *)
Lemma DuplicateBlogTitleError_construction (model : BlogPostModel) :
  DuplicateBlogTitleError___init__ model
  = Ok (blog_validation_error.Make DuplicateBlogTitleError
          ("title=" +:+ utils_quoted (model_title model) +:+ " is not unique")
          model).
Proof. reflexivity. Qed.
End Audit.


(* ===================================================================== *)
(** ** Worked examples *)
(* ===================================================================== *)

Section WorkedExamples.
Import Examples.
#[local] Existing Instance world.

(** Post [A] of the tests with empty content cannot be validated for
    publication. *)
Lemma validate_strict_empty_content_witness :
  BlogPost.validate true post_a_empty_content
  = (Raise (ValidationError "Content can not be empty"), post_a_empty_content).
Proof.
  apply validate_strict_empty_content; vm_compute; reflexivity.
Defined.

(** [update_content] takes the empty content, which strict validation of
    the resulting post then rejects. *)
Lemma update_content_accepts_empty_content :
  BlogPost.update_content (VStr "") post_a = (Ok tt, post_a_empty_content)
  /\ (BlogPost.validate true post_a_empty_content).1
     = Raise (ValidationError "Content can not be empty").
Proof. split; vm_compute; reflexivity. Qed.

(** [update_thumbnail_filename] takes the empty filename, which the
    thumbnail check rejects. *)
Lemma update_thumbnail_filename_accepts_empty_name :
  BlogPost.update_thumbnail_filename (VStr "") post_a
    = (Ok tt, BlogPost.set_thumbnail_filename (VStr "") post_a)
  /\ BlogPost.require_valid_thumbnail_filename (VStr "") true
     = Raise (ValidationError "Thumbnail filename should not be empty.").
Proof. split; vm_compute; reflexivity. Qed.

Lemma summary_title_skips_pattern_witness :
  BlogPostSummary.require_valid_title (VStr "Sample-Title!") true = Ok tt
  /\ exists msg,
       BlogPost.require_valid_title (VStr "Sample-Title!") true
       = Raise (ValidationError msg).
Proof.
  apply (summary_title_skips_pattern "Sample-Title!");
    [vm_compute; lia|discriminate|vm_compute; reflexivity].
Defined.

(** Post [A] comes back from the round trip without its author. *)
Lemma roundtrip_of_post_a :
  (w ← BlogPost.serialize post_a; BlogPost.deserialize w)
  = Ok post_a_after_round_trip
  /\ BlogPost.author_id post_a_after_round_trip <> BlogPost.author_id post_a.
Proof. split; [vm_compute; reflexivity|discriminate]. Qed.

Lemma deserialize_serialize_author_id_witness :
  exists name,
    get_user_id_from_username (VStr "uid_a") = Ok name
    /\ get_user_id_from_username name = Ok VNone.
Proof.
  assert (Hser : exists w, BlogPost.serialize post_a = Ok w)
    by (vm_compute; eauto).
  destruct Hser as [w Hser].
  apply (deserialize_serialize_author_id post_a post_a_after_round_trip w).
  - intros d w'. unfold json_dumps, world, dumps. simpl.
    destruct (forallb _ _); [by intros [= ->]|done].
  - done.
  - revert Hser. vm_compute. intros [= <-]. reflexivity.
Defined.

Lemma process_title_mismatch_witness :
  yielded (blog_validations.process title_mismatch_error stale_summaries model_a)
    = []
  /\ ended_by
       (blog_validations.process title_mismatch_error stale_summaries model_a)
     = Some (NameError "blog_validation_errors")
  /\ blog_validations.load_model
       [("input_model", model_a); ("item", model_a)] "model"
     = Raise (NameError "model").
Proof.
  apply (process_title_mismatch title_mismatch_error stale_summaries model_a
           (Build_BlogPostSummaryModel "blogpostid_a" ""));
    vm_compute; congruence.
Defined.

(** The message prepared for record [A] carries its title; its URL
    fragment is [sample-title]. *)
Lemma DuplicateBlogUrlError_of_model_a :
  blog_validation_error.DuplicateBlogUrlError_message model_a
    = "url=" +:+ quoted "Sample Title" +:+ " is not unique"
  /\ model_url_fragment model_a = "sample-title"
  /\ is_ok (blog_validation_error.DuplicateBlogUrlError___init__ model_a) = false.
Proof. repeat split. Qed.

(** A tag that ends in a newline passes the pattern test of the code,
    whose [$] also holds before a final newline, and is refused by the
    test on its last character. *)
Lemma tag_with_final_newline_rejected :
  Re.re_match TAG_REGEX (String "a" (String Re.newline EmptyString)) = true
  /\ is_validation_error
       (BlogPost.require_valid_tags
          (VList [VStr (String "a" (String Re.newline EmptyString))]) false)
     = true.
Proof. split; vm_compute; reflexivity. Qed.
End WorkedExamples.

(* ===================================================================== *)
(** ** What validation accepts *)
(* ===================================================================== *)

Section Validity.
Context `{Collaborators}.

Lemma raise_if_validation_error c msg :
  ok_or_validation_error (raise_if c (ValidationError msg)).
Proof. destruct c; [by right|by left]. Qed.

Lemma bind_ok_or_validation_error {A B} (r : result A) (f : A -> result B) :
  ok_or_validation_error r -> (forall a, ok_or_validation_error (f a)) ->
  ok_or_validation_error (r ≫= f).
Proof. intros [Hr|Hr] Hf; destruct r as [a|[]]; try done. apply Hf. by right. Qed.


Lemma BlogPost_title_outcome v strict :
  ok_or_validation_error (BlogPost.require_valid_title v strict).
Proof.
  destruct v; try (by right). simpl.
  apply bind_ok_or_validation_error; [apply raise_if_validation_error|intros _].
  destruct strict; [|by left].
  apply bind_ok_or_validation_error; intros; apply raise_if_validation_error.
Qed.

Lemma BlogPostSummary_title_outcome v strict :
  ok_or_validation_error (BlogPostSummary.require_valid_title v strict).
Proof.
  destruct v; try (by right). simpl.
  apply bind_ok_or_validation_error; [apply raise_if_validation_error|intros _].
  destruct strict; [|by left]. apply raise_if_validation_error.
Qed.





Lemma BlogPost_validate_ok_iff strict post :
  (BlogPost.validate strict post).1 = Ok tt <->
  BlogPost.require_valid_blog_post_id (BlogPost.id post) = Ok tt
  /\ BlogPost.require_valid_title (BlogPost.title post) strict = Ok tt
  /\ BlogPost.require_valid_tags (BlogPost.tags post) strict = Ok tt
  /\ BlogPost.require_valid_thumbnail_filename
       (BlogPost.thumbnail_filename post) strict = Ok tt
  /\ is_basestring (BlogPost.content post) = true
  /\ (strict = true ->
      BlogPost.require_valid_url_fragment (BlogPost.url_fragment post) = Ok tt
      /\ py_eq (BlogPost.content post) (VStr "") = false).
Proof.
  unfold BlogPost.validate, mbind, method_bind, attr, call.
  destruct (BlogPost.require_valid_blog_post_id _) as [[]|]; simpl;
    [|split; [done|by intros [? _]]].
  destruct (BlogPost.require_valid_title _ _) as [[]|]; simpl;
    [|split; [done|by intros (_ & ? & _)]].
  destruct (BlogPost.require_valid_tags _ _) as [[]|]; simpl;
    [|split; [done|by intros (_ & _ & ? & _)]].
  destruct (BlogPost.require_valid_thumbnail_filename _ _) as [[]|]; simpl;
    [|split; [done|by intros (_ & _ & _ & ? & _)]].
  destruct (is_basestring _); simpl;
    [|split; [done|by intros (_ & _ & _ & _ & ? & _)]].
  destruct strict; simpl; [|by repeat split].
  destruct (BlogPost.require_valid_url_fragment _) as [[]|]; simpl.
  - destruct (py_eq _ _); simpl; [|by repeat split].
    split; [done|]. intros (_ & _ & _ & _ & _ & Hs).
    by destruct (Hs eq_refl) as [_ ?].
  - split; [done|]. intros (_ & _ & _ & _ & _ & Hs).
    by destruct (Hs eq_refl) as [? _].
Qed.

Lemma BlogPostSummary_validate_ok_iff strict s :
  (BlogPostSummary.validate strict s).1 = Ok tt <->
  BlogPostSummary.require_valid_blog_post_id (BlogPostSummary.id s) = Ok tt
  /\ BlogPostSummary.require_valid_title (BlogPostSummary.title s) strict = Ok tt
  /\ BlogPostSummary.require_valid_tags (BlogPostSummary.tags s) strict = Ok tt
  /\ BlogPostSummary.require_valid_thumbnail_filename
       (BlogPostSummary.thumbnail_filename s) strict = Ok tt
  /\ is_basestring (BlogPostSummary.summary s) = true
  /\ (strict = true ->
      BlogPostSummary.require_valid_url_fragment (BlogPostSummary.url_fragment s)
        = Ok tt
      /\ py_eq (BlogPostSummary.summary s) (VStr "") = false).
Proof.
  unfold BlogPostSummary.validate, mbind, method_bind, attr, call.
  destruct (BlogPostSummary.require_valid_blog_post_id _) as [[]|]; simpl;
    [|split; [done|by intros [? _]]].
  destruct (BlogPostSummary.require_valid_title _ _) as [[]|]; simpl;
    [|split; [done|by intros (_ & ? & _)]].
  destruct (BlogPostSummary.require_valid_tags _ _) as [[]|]; simpl;
    [|split; [done|by intros (_ & _ & ? & _)]].
  destruct (BlogPostSummary.require_valid_thumbnail_filename _ _) as [[]|]; simpl;
    [|split; [done|by intros (_ & _ & _ & ? & _)]].
  destruct (is_basestring _); simpl;
    [|split; [done|by intros (_ & _ & _ & _ & ? & _)]].
  destruct strict; simpl; [|by repeat split].
  destruct (BlogPostSummary.require_valid_url_fragment _) as [[]|]; simpl.
  - destruct (py_eq _ _); simpl; [|by repeat split].
    split; [done|]. intros (_ & _ & _ & _ & _ & Hs).
    by destruct (Hs eq_refl) as [_ ?].
  - split; [done|]. intros (_ & _ & _ & _ & _ & Hs).
    by destruct (Hs eq_refl) as [? _].
Qed.

Lemma BlogPost_id_ok_iff v :
  BlogPost.require_valid_blog_post_id v = Ok tt <->
  exists s, v = VStr s /\ String.length s = 12.
Proof.
  destruct v as [| |s| |]; simpl; try (split; [done|by intros (? & ? & _)]).
  destruct (Nat.eqb_spec (String.length s) 12); simpl; split;
    try done; try (intros _; by exists s); by intros (? & [= <-] & ?).
Qed.

Lemma BlogPost_title_ok_iff v strict :
  BlogPost.require_valid_title v strict = Ok tt <->
  exists s, v = VStr s
    /\ String.length s <= MAX_CHARS_IN_BLOG_POST_TITLE
    /\ (strict = true ->
        s <> "" /\ Re.re_match VALID_BLOG_POST_TITLE_REGEX s = true).
Proof.
  destruct v as [| |s| |]; simpl; try (split; [done|by intros (? & ? & _)]).
  destruct (Nat.ltb_spec MAX_CHARS_IN_BLOG_POST_TITLE (String.length s)); simpl.
  { split; [done|]. intros (? & [= <-] & ? & _). lia. }
  destruct strict.
  - destruct (String.eqb_spec s ""); simpl.
    { split; [done|]. intros (? & [= <-] & _ & Hs). by destruct (Hs eq_refl). }
    destruct (Re.re_match _ s) eqn:Hre; simpl.
    + split; [|done]. intros _. exists s. repeat split; try done; lia.
    + split; [done|]. intros (? & [= <-] & _ & Hs).
      destruct (Hs eq_refl) as [_ Hm]. congruence.
  - split; [|done]. intros _. exists s. repeat split; try done; lia.
Qed.

Lemma BlogPostSummary_title_ok_iff v strict :
  BlogPostSummary.require_valid_title v strict = Ok tt <->
  exists s, v = VStr s
    /\ String.length s <= MAX_CHARS_IN_BLOG_POST_TITLE
    /\ (strict = true -> s <> "").
Proof.
  destruct v as [| |s| |]; simpl; try (split; [done|by intros (? & ? & _)]).
  destruct (Nat.ltb_spec MAX_CHARS_IN_BLOG_POST_TITLE (String.length s)); simpl.
  { split; [done|]. intros (? & [= <-] & ? & _). lia. }
  destruct strict.
  - destruct (String.eqb_spec s ""); simpl.
    { split; [done|]. intros (? & [= <-] & _ & Hs). by specialize (Hs eq_refl). }
    split; [|done]. intros _. exists s. repeat split; try done; lia.
  - split; [|done]. intros _. exists s. repeat split; try done; lia.
Qed.

Lemma BlogPost_tags_ok_iff l strict :
  BlogPost.require_valid_tags (VList l) strict = Ok tt <->
  Forall matches_spec_tag_regex l /\ NoDup l /\ (strict = true -> l <> []).
Proof.
  simpl. pose proof (for_tag_in_ok l) as Hok.
  destruct (for_tag_in l) as [[]|]; simpl;
    [|split; [done|intros [HF _]; by apply Hok in HF]].
  assert (HF : Forall matches_spec_tag_regex l) by tauto.
  assert (Hdup : raise_if (negb (length (py_set l) =? length l)%nat)
                   (ValidationError "Some tags duplicate each other") = Ok tt
                 <-> NoDup l).
  { rewrite <- py_set_length. unfold raise_if.
    destruct (Nat.eqb_spec (length (py_set l)) (length l)); simpl; split; done. }
  destruct strict; simpl.
  - destruct l as [|tag l]; simpl.
    + split; [done|]. intros (_ & _ & Hne). by specialize (Hne eq_refl).
    + rewrite Hdup. split; [by intros ?|by intros (_ & ? & _)].
  - rewrite Hdup. split; [by intros ?|by intros (_ & ? & _)].
Qed.

Lemma BlogPost_tags_ok_list v strict :
  BlogPost.require_valid_tags v strict = Ok tt -> exists l, v = VList l.
Proof. destruct v; try done. eauto. Qed.

Lemma BlogPost_thumbnail_strict_ok v :
  BlogPost.require_valid_thumbnail_filename v true = Ok tt ->
  (exists s, v = VStr s /\ s <> "")
  /\ BlogPost.require_valid_thumbnail_filename v false = Ok tt.
Proof.
  unfold BlogPost.require_valid_thumbnail_filename.
  destruct v as [| |s| |]; simpl; try done.
  destruct (String.eqb_spec s ""); simpl; [done|]. intros Hu.
  split; [by exists s|done].
Qed.

Lemma BlogPostSummary_thumbnail_strict_ok v :
  BlogPostSummary.require_valid_thumbnail_filename v true = Ok tt ->
  (exists s, v = VStr s /\ s <> "")
  /\ BlogPostSummary.require_valid_thumbnail_filename v false = Ok tt.
Proof.
  unfold BlogPostSummary.require_valid_thumbnail_filename.
  destruct v as [| |s| |]; simpl; try done.
  destruct (String.eqb_spec s ""); simpl; [done|]. intros Hu.
  split; [by exists s|done].
Qed.


(** X1. The title checks: the post accepts exactly the strings within the
    length limit that, in strict mode, are not empty and match the title
    pattern; the summary accepts exactly the strings within the limit that,
    in strict mode, are not empty; both raise a [ValidationError] for
    everything else. *)
Theorem title_validation_iff (v : value) (strict : bool) :
  (BlogPost.require_valid_title v strict = Ok tt <->
     exists s, v = VStr s
       /\ String.length s <= MAX_CHARS_IN_BLOG_POST_TITLE
       /\ (strict = true ->
           s <> "" /\ Re.re_match VALID_BLOG_POST_TITLE_REGEX s = true))
  /\ (BlogPostSummary.require_valid_title v strict = Ok tt <->
        exists s, v = VStr s
          /\ String.length s <= MAX_CHARS_IN_BLOG_POST_TITLE
          /\ (strict = true -> s <> ""))
  /\ ok_or_validation_error (BlogPost.require_valid_title v strict)
  /\ ok_or_validation_error (BlogPostSummary.require_valid_title v strict).
Proof.
  split; [apply BlogPost_title_ok_iff|].
  split; [apply BlogPostSummary_title_ok_iff|].
  split; [apply BlogPost_title_outcome|apply BlogPostSummary_title_outcome].
Qed.

(** X2. What [validate] guarantees about a post it accepts: the id is a
    string of 12 characters, the title a string within the limit, the tags a
    list of distinct strings matching the tag pattern, the thumbnail
    filename not the empty string and the content a string; in strict mode
    moreover the title is not empty and matches the title pattern, there is
    a tag, the thumbnail filename is a string and the content is not
    empty. *)
Theorem valid_post_is_well_formed (strict : bool) (post : BlogPost.t) :
  (BlogPost.validate strict post).1 = Ok tt ->
  exists id title tags content,
    BlogPost.id post = VStr id /\ String.length id = 12
    /\ BlogPost.title post = VStr title
    /\ String.length title <= MAX_CHARS_IN_BLOG_POST_TITLE
    /\ BlogPost.tags post = VList tags
    /\ Forall matches_spec_tag_regex tags /\ NoDup tags
    /\ BlogPost.thumbnail_filename post <> VStr ""
    /\ BlogPost.content post = VStr content
    /\ (strict = true ->
        title <> "" /\ Re.re_match VALID_BLOG_POST_TITLE_REGEX title = true
        /\ tags <> []
        /\ (exists thumbnail, BlogPost.thumbnail_filename post = VStr thumbnail)
        /\ content <> "").
Proof.
  intros (Hid & Htitle & Htags & Hthumb & Hcontent & Hstrict)%BlogPost_validate_ok_iff.
  apply BlogPost_id_ok_iff in Hid as (id & Hid & Hlen).
  apply BlogPost_title_ok_iff in Htitle as (title & Htitle & Htlen & Htstrict).
  destruct (BlogPost_tags_ok_list _ _ Htags) as [tags Hl]. rewrite Hl in Htags.
  apply BlogPost_tags_ok_iff in Htags as (HF & Hnd & Hne).
  destruct (BlogPost.content post) as [| |content| |] eqn:Hc; try done.
  exists id, title, tags, content. split_and!; try done.
  - intros Heq. rewrite Heq in Hthumb.
    unfold BlogPost.require_valid_thumbnail_filename in Hthumb.
    by destruct strict.
  - intros Hs. destruct (Htstrict Hs) as [Hne' Hre]. split_and!; try done.
    + by apply Hne.
    + subst strict.
      apply BlogPost_thumbnail_strict_ok in Hthumb as [(t & Ht & _) _].
      by exists t.
    + intros ->. by destruct (Hstrict Hs) as [_ Hempty].
Qed.

(** X3. A post, or a summary, that passes strict validation passes relaxed
    validation. *)
Theorem strict_validity_implies_relaxed_validity :
  (forall post : BlogPost.t,
     (BlogPost.validate true post).1 = Ok tt ->
     (BlogPost.validate false post).1 = Ok tt)
  /\ (forall summary : BlogPostSummary.t,
        (BlogPostSummary.validate true summary).1 = Ok tt ->
        (BlogPostSummary.validate false summary).1 = Ok tt).
Proof.
  split.
  - intros post (Hid & Htitle & Htags & Hthumb & Hcontent & _)%BlogPost_validate_ok_iff.
    apply BlogPost_validate_ok_iff. split; [done|].
    split.
    { apply BlogPost_title_ok_iff in Htitle as (s & ? & ? & _).
      apply BlogPost_title_ok_iff. by exists s. }
    split.
    { destruct (BlogPost_tags_ok_list _ _ Htags) as [l Hl]. rewrite Hl in *.
      apply BlogPost_tags_ok_iff in Htags as (? & ? & _).
      by apply BlogPost_tags_ok_iff. }
    split; [by apply BlogPost_thumbnail_strict_ok|]. done.
  - intros s (Hid & Htitle & Htags & Hthumb & Hcontent & _)%BlogPostSummary_validate_ok_iff.
    apply BlogPostSummary_validate_ok_iff. split; [done|].
    split.
    { apply BlogPostSummary_title_ok_iff in Htitle as (t & ? & ? & _).
      apply BlogPostSummary_title_ok_iff. by exists t. }
    split.
    { change (BlogPost.require_valid_tags (BlogPostSummary.tags s) true = Ok tt)
        in Htags.
      change (BlogPost.require_valid_tags (BlogPostSummary.tags s) false = Ok tt).
      destruct (BlogPost_tags_ok_list _ _ Htags) as [l Hl]. rewrite Hl in *.
      apply BlogPost_tags_ok_iff in Htags as (? & ? & _).
      by apply BlogPost_tags_ok_iff. }
    split; [by apply BlogPostSummary_thumbnail_strict_ok|]. done.
Qed.



Lemma Forall_sublist_of {A} (P : A -> Prop) (l1 l2 : list A) :
  l1 `sublist_of` l2 -> Forall P l2 -> Forall P l1.
Proof.
  induction 1 as [|x l1 l2 _ IH|x l1 l2 _ IH]; intros HF; [done| |].
  - apply Forall_cons in HF as [? ?]. constructor; auto.
  - apply Forall_cons in HF as [? ?]. auto.
Qed.

(** X5. A non-empty list made of accepted tags, by reordering them or by
    leaving some out, is accepted in the same mode. *)
Theorem accepted_tags_can_be_reordered_and_removed
    (tags tags' : list value) (strict : bool) :
  BlogPost.require_valid_tags (VList tags) strict = Ok tt ->
  tags' <> [] ->
  (tags' `sublist_of` tags \/ tags' ≡ₚ tags) ->
  BlogPost.require_valid_tags (VList tags') strict = Ok tt.
Proof.
  intros (HF & Hnd & _)%BlogPost_tags_ok_iff Hne Hrel.
  apply BlogPost_tags_ok_iff. destruct Hrel as [Hsub|Hperm].
  - split_and!; [by eapply Forall_sublist_of|by eapply sublist_NoDup|done].
  - split_and!; [by rewrite Hperm|by rewrite Hperm|done].
Qed.

(** X6. On a post that passes strict validation, a successful
    [update_title], [update_tags] or [update_url_fragment] leaves a post that
    passes strict validation. *)
Theorem updates_preserve_strict_validity (post : BlogPost.t) (v : value) :
  (BlogPost.validate true post).1 = Ok tt ->
  ((BlogPost.update_title v post).1 = Ok tt ->
   (BlogPost.validate true (BlogPost.update_title v post).2).1 = Ok tt)
  /\ ((BlogPost.update_tags v post).1 = Ok tt ->
      (BlogPost.validate true (BlogPost.update_tags v post).2).1 = Ok tt)
  /\ ((BlogPost.update_url_fragment v post).1 = Ok tt ->
      (BlogPost.validate true (BlogPost.update_url_fragment v post).2).1 = Ok tt).
Proof.
  intros (Hid & Htitle & Htags & Hthumb & Hcontent & Hstrict)%BlogPost_validate_ok_iff.
  destruct (Hstrict eq_refl) as [Hurl Hne].
  unfold BlogPost.update_title, BlogPost.update_tags, BlogPost.update_url_fragment,
    mbind, method_bind, call, setattr.
  split_and!.
  - destruct (BlogPost.require_valid_title v true) as [[]|] eqn:Hv; [|done].
    intros _. by apply BlogPost_validate_ok_iff.
  - destruct (BlogPost.require_valid_tags v true) as [[]|] eqn:Hv; [|done].
    intros _. by apply BlogPost_validate_ok_iff.
  - destruct (BlogPost.require_valid_url_fragment v) as [[]|] eqn:Hv; [|done].
    intros _. by apply BlogPost_validate_ok_iff.
Qed.

(** X7. Each of the five update operations either returns normally having
    written its own field and no other, or raises and leaves the post as it
    was. *)
Theorem updates_write_one_field_or_nothing (post : BlogPost.t) (v : value) :
  (BlogPost.update_title v post = (Ok tt, BlogPost.set_title v post)
   \/ exists e, BlogPost.update_title v post = (Raise e, post))
  /\ (BlogPost.update_tags v post = (Ok tt, BlogPost.set_tags v post)
      \/ exists e, BlogPost.update_tags v post = (Raise e, post))
  /\ (BlogPost.update_url_fragment v post
        = (Ok tt, BlogPost.set_url_fragment v post)
      \/ exists e, BlogPost.update_url_fragment v post = (Raise e, post))
  /\ (BlogPost.update_thumbnail_filename v post
        = (Ok tt, BlogPost.set_thumbnail_filename v post)
      \/ exists e, BlogPost.update_thumbnail_filename v post = (Raise e, post))
  /\ ((exists cleaned,
         html_cleaner_clean v = Ok cleaned
         /\ BlogPost.update_content v post
            = (Ok tt, BlogPost.set_content cleaned post))
      \/ exists e, BlogPost.update_content v post = (Raise e, post)).
Proof.
  unfold BlogPost.update_title, BlogPost.update_tags, BlogPost.update_url_fragment,
    BlogPost.update_thumbnail_filename, BlogPost.update_content,
    mbind, method_bind, call, setattr, attr.
  split_and!.
  - destruct (BlogPost.require_valid_title v true) as [[]|]; eauto.
  - destruct (BlogPost.require_valid_tags v true) as [[]|]; eauto.
  - destruct (BlogPost.require_valid_url_fragment v) as [[]|]; eauto.
  - destruct (BlogPost.require_valid_thumbnail_filename _ false) as [[]|]; eauto.
  - destruct (html_cleaner_clean v); eauto.
Qed.

End Validity.

(* ===================================================================== *)
(** ** The widget handlers *)
(* ===================================================================== *)

Section WidgetHandlers.
Import widgets.
Context {widget instance_dict customization_args : Type}.
Context (category : widget -> string).
Context (get_widget_instance_dict :
           widget -> customization_args -> result instance_dict).
Context (no_customization_args : customization_args).
Context (get_widgets_of_type : string -> result (list widget)).
Context (lt : instance_dict -> instance_dict -> bool).

Local Abbreviation loop :=
  (for_widget_in category get_widget_instance_dict no_customization_args).
Local Abbreviation group := (dicts_of_category category).
Local Abbreviation sorted := (sort lt).
Local Abbreviation insert := (insert_sorted lt).

Lemma insert_sorted_Permutation x l : insert x l ≡ₚ x :: l.
Proof.
  induction l as [|y l IH]; simpl; [done|].
  destruct (lt y x); [|done]. rewrite IH. apply Permutation_swap.
Qed.

Lemma sort_Permutation l : sorted l ≡ₚ l.
Proof.
  induction l as [|x l IH]; simpl; [done|].
  by rewrite insert_sorted_Permutation, IH.
Qed.

Lemma insert_sorted_Sorted x l :
  (forall a b, lt a b = true -> lt b a = false) ->
  Sorted (not_after lt) l -> Sorted (not_after lt) (insert x l).
Proof.
  intros Hasym. induction l as [|y l IH]; intros Hs; simpl.
  - by repeat constructor.
  - destruct (lt y x) eqn:Hyx.
    + apply Sorted_inv in Hs as [Hs Hhd]. constructor; [by apply IH|].
      destruct l as [|z l]; simpl.
      * constructor. by apply Hasym.
      * destruct (lt z x); constructor.
        -- by apply HdRel_inv in Hhd.
        -- by apply Hasym.
    + constructor; [done|]. by constructor.
Qed.

Lemma sort_Sorted l :
  (forall a b, lt a b = true -> lt b a = false) ->
  Sorted (not_after lt) (sorted l).
Proof.
  intros Hasym. induction l as [|x l IH]; simpl; [constructor|].
  by apply insert_sorted_Sorted.
Qed.

Lemma for_widget_in_spec widget_list : forall acc widgets,
  loop widget_list acc = Ok widgets ->
  exists dicts,
    Forall2 (fun w d => get_widget_instance_dict w no_customization_args = Ok d)
      widget_list dicts
    /\ forall c,
         widgets !! c
         = match group c widget_list dicts with
           | [] => acc !! c
           | g => Some (default [] (acc !! c) ++ g)
           end.
Proof.
  induction widget_list as [|w ws IH]; intros acc widgets; simpl.
  - intros [= <-]. exists []. split; [constructor|done].
  - destruct (get_widget_instance_dict w no_customization_args) as [d|] eqn:Hd;
      [|done].
    simpl. intros (ds & HF & Hgroups)%IH. exists (d :: ds).
    split; [by constructor|]. intros c. rewrite Hgroups.
    unfold dicts_of_category, append_to. simpl. rewrite filter_cons. simpl.
    destruct (decide (category w = c)) as [<-|Hne].
    + rewrite lookup_insert_eq. simpl.
      destruct (filter _ (zip ws ds)) as [|[w' d'] rest]; simpl; [done|].
      by rewrite <- app_assoc.
    + by rewrite lookup_insert_ne.
Qed.

(** X16. In the response of [WidgetRepositoryHandler.get] every category
    of a listed widget is a key, and only those are; the list under a
    category is not empty and holds, in some order, exactly the instance
    dicts of the listed widgets of that category. *)
Theorem get_groups_widgets_by_category widget_type widget_list widgets :
  get_widgets_of_type widget_type = Ok widget_list ->
  widgets.get category get_widget_instance_dict no_customization_args
    get_widgets_of_type lt widget_type = render_json widgets ->
  exists dicts,
    Forall2 (fun w d => get_widget_instance_dict w no_customization_args = Ok d)
      widget_list dicts
    /\ forall c,
         match widgets !! c with
         | Some l =>
             l <> [] /\ l ≡ₚ dicts_of_category category c widget_list dicts
         | None => forall w, w ∈ widget_list -> category w <> c
         end.
Proof.
  intros Hreg. unfold get. rewrite Hreg.
  destruct (loop widget_list ∅) as [m|] eqn:Hloop; [|done].
  intros [= <-]. apply for_widget_in_spec in Hloop as (dicts & HF & Hgroups).
  exists dicts. split; [done|]. intros c.
  rewrite lookup_fmap, Hgroups, lookup_empty. simpl.
  destruct (group c widget_list dicts) as [|d g] eqn:Hg; simpl.
  - intros w Hw Hc. apply list_elem_of_lookup in Hw as [i Hi].
    destruct (Forall2_lookup_l _ _ _ _ _ HF Hi) as (d & Hd & _).
    assert (Hin : d ∈ group c widget_list dicts).
    { unfold dicts_of_category. apply list_elem_of_fmap. exists (w, d).
      split; [done|]. apply list_elem_of_filter. split; [done|].
      apply list_elem_of_lookup. exists i. by apply lookup_zip_with_Some; eauto. }
    rewrite Hg in Hin. by apply elem_of_nil in Hin.
  - split; [|apply (sort_Permutation (d :: g))].
    intros Hnil. pose proof (sort_Permutation (d :: g)) as Hp. simpl in Hp.
    rewrite Hnil in Hp. by apply Permutation_nil_cons in Hp.
Qed.

(** X17. With an asymmetric [<] on instance dicts, in every list of the
    response no dict is followed by a smaller one. The sort is modelled as a
    stable insertion sort, which is what [list.sort] computes for a strict
    weak order. *)
Theorem get_sorts_every_category widget_type widgets c l :
  (forall a b, lt a b = true -> lt b a = false) ->
  widgets.get category get_widget_instance_dict no_customization_args
    get_widgets_of_type lt widget_type = render_json widgets ->
  widgets !! c = Some l ->
  Sorted (not_after lt) l.
Proof.
  intros Hasym. unfold get.
  destruct (get_widgets_of_type widget_type); [|done].
  destruct (loop _ ∅); [|done]. intros [= <-].
  rewrite lookup_fmap. destruct (_ !! c); [|done]. intros [= <-].
  by apply sort_Sorted.
Qed.

(** X15. [WidgetRepositoryHandler.get] raises [PageNotFoundException]
    exactly when the registry lookup raises, whatever it raises. *)
Theorem get_not_found_iff_registry_fails widget_type :
  widgets.get category get_widget_instance_dict no_customization_args
    get_widgets_of_type lt widget_type = PageNotFoundException
  <-> exists e, get_widgets_of_type widget_type = Raise e.
Proof.
  unfold get. destruct (get_widgets_of_type widget_type) as [ws|e].
  - destruct (loop ws ∅); split; try done; by intros [? ?].
  - split; [eauto|done].
Qed.
End WidgetHandlers.

(* ===================================================================== *)
(** ** Test helpers, relationship generators, serialization, title audit *)
(* ===================================================================== *)

(** X14. [_is_alphanumeric_string] holds exactly for a non-empty run of
    letters, digits and underscores, optionally followed by one final
    newline (which [$] lets through). *)
Theorem is_alphanumeric_string_iff (s : string) :
  widget_domain_test._is_alphanumeric_string s = true <->
  exists w,
    w <> []
    /\ forallb widget_domain_test.word_char w = true
    /\ (list_ascii_of_string s = w
        \/ list_ascii_of_string s = w ++ [Re.newline]).
Proof.
  unfold widget_domain_test._is_alphanumeric_string, Re.re_match. simpl.
  rewrite match_dollar_spec. split.
  - intros (w & rest & Hs & [Hne Hall]%lang_plus_class & Hd).
    exists w. split; [done|]. split; [done|].
    destruct rest as [|c [|]]; simpl in Hd; try done.
    + left. by rewrite Hs, app_nil_r.
    + right. apply Ascii.eqb_eq in Hd as ->. done.
  - intros (w & Hne & Hall & [Hs|Hs]).
    + exists w, []. rewrite app_nil_r. split; [done|].
      split; [by apply lang_plus_class|done].
    + exists w, [Re.newline]. split; [done|].
      split; [by apply lang_plus_class|done].
Qed.

(** X13. Each of the three relationship generators yields the two
    relationships from the id of the record to its two sibling record
    classes and then ends with [NameError]: [user_models] is never imported,
    so the relationship to the user settings is not yielded. *)
Theorem relationship_generators_stop_before_the_user_relationship :
  (forall model,
     relationships.blog_post_model_relationships model
     = Generated
         [(VStr (model_id model), [relationships.BlogPostSummaryModel_class]);
          (VStr (model_id model), [relationships.BlogPostRightsModel_class])]
         (Some (NameError "user_models")))
  /\ (forall model author_id,
        relationships.blog_post_summary_model_relationships model author_id
        = Generated
            [(VStr (summary_model_id model), [relationships.BlogPostModel_class]);
             (VStr (summary_model_id model),
              [relationships.BlogPostRightsModel_class])]
            (Some (NameError "user_models")))
  /\ (forall model,
        relationships.blog_post_rights_model_relationships model
        = Generated
            [(VStr (relationships.rights_model_id model),
              [relationships.BlogPostModel_class]);
             (VStr (relationships.rights_model_id model),
              [relationships.BlogPostSummaryModel_class])]
            (Some (NameError "user_models"))).
Proof. repeat split. Qed.

Section SerializationExtras.
Context `{Collaborators}.

(** X9. The dictionary [serialize] encodes has the seven keys of
    [to_dict], has [last_updated] exactly when the post's [last_updated] is
    true (a datetime, not [None]), and likewise [published_on]. *)
Theorem serialize_writes_a_timestamp_only_when_set (post : BlogPost.t) w :
  BlogPost.serialize post = Ok w ->
  exists d,
    json_dumps d = Ok w
    /\ (is_Some (d !! "last_updated") <-> truthy (BlogPost.last_updated post) = true)
    /\ (is_Some (d !! "published_on") <-> truthy (BlogPost.published_on post) = true)
    /\ Forall (fun k => is_Some (d !! k))
         ["id"; "author_name"; "title"; "content"; "thumbnail_filename";
          "tags"; "url_fragment"].
Proof.
  intros (name & d & _ & Hw & Ha & Hi & Ht & Hc & Hf & Hg & Hu & Hl & Hp)%serialize_inv.
  exists d. split; [done|]. split_and!.
  - destruct (truthy (BlogPost.last_updated post)).
    + destruct Hl as (text & _ & ->). by split.
    + rewrite Hl. split; [by intros [? ?]|done].
  - destruct (truthy (BlogPost.published_on post)).
    + destruct Hp as (text & _ & ->). by split.
    + rewrite Hp. split; [by intros [? ?]|done].
  - repeat constructor; eauto.
Qed.

(** X10. [from_dict] on a dictionary without [author_name] raises
    [KeyError('author_name')], and it returns a post only for a dictionary
    that has all seven keys. *)
Theorem from_dict_requires_every_key d published_on last_updated :
  (d !! "author_name" = None ->
   BlogPost.from_dict d published_on last_updated
   = Raise (KeyError "author_name"))
  /\ (is_ok (BlogPost.from_dict d published_on last_updated) = true ->
      Forall (fun k => is_Some (d !! k))
        ["id"; "author_name"; "title"; "content"; "thumbnail_filename";
         "tags"; "url_fragment"]).
Proof.
  split.
  - intros Hnone. unfold BlogPost.from_dict, getitem. by rewrite Hnone.
  - destruct (BlogPost.from_dict d published_on last_updated) as [post'|] eqn:Hf;
      [|done].
    intros _.
    apply from_dict_inv in Hf
      as (name & content & Ha & _ & Hi & Ht & Hc & _ & Hth & Hg & Hu & _).
    repeat constructor; eauto.
Qed.
End SerializationExtras.

Section AuditExtras.
Context `{Collaborators}.
Import blog_validations.

(** X11. The title audit yields nothing and ends normally for a post with
    an empty title, and for a post whose stored summary has the same
    title. *)
Theorem process_is_quiet_on_consistent_titles
    mk_error summaries input_model :
  (model_title (job_utils_clone_model input_model) = ""
   \/ exists summary_model,
        summaries !! model_id (job_utils_clone_model input_model)
          = Some summary_model
        /\ summary_model_title summary_model
           = model_title (job_utils_clone_model input_model)) ->
  process mk_error summaries input_model = Generated [] None.
Proof.
  intros [Hempty|(summary_model & Hsum & Htitle)].
  - by apply process_empty_title.
  - by eapply process_matching_title.
Qed.

(** X12. For a post with a non-empty title and no stored summary the
    title audit yields nothing and ends with [AttributeError]:
    [get_by_id] returns [None] and its [title] is read. *)
Theorem process_fails_without_a_summary mk_error summaries input_model :
  model_title (job_utils_clone_model input_model) <> "" ->
  summaries !! model_id (job_utils_clone_model input_model) = None ->
  process mk_error summaries input_model
  = Generated []
      (Some (AttributeError "'NoneType' object has no attribute 'title'")).
Proof.
  intros Hne Hnone. unfold process.
  apply String.eqb_neq in Hne as ->. by rewrite Hnone.
Qed.
End AuditExtras.

Ltac by_every_ascii c :=
  destruct c as [[] [] [] [] [] [] [] []]; vm_compute; congruence.

Lemma char_in_ascii_uppercase c :
  char_in c widget_domain_test.ascii_uppercase = Re.upper c.
Proof. by_every_ascii c. Qed.

(** X19. [_is_camel_cased] holds exactly for a name that starts with one of
    [A] to [Z]; the empty name is refused without its first character being
    read. *)
Theorem is_camel_cased_iff (name : string) :
  widget_domain_test._is_camel_cased name = true <->
  exists c rest, name = String c rest /\ Re.upper c = true.
Proof.
  destruct name as [|c rest]; simpl.
  - split; [done|]. by intros (? & ? & ? & _).
  - rewrite char_in_ascii_uppercase. split.
    + intros Hc. by exists c, rest.
    + by intros (? & ? & [= <- <-] & ?).
Qed.

Section PostHandler.
Context {widget instance_dict customization_args : Type}.
Context (get_widget_instance_dict :
           widget -> customization_args -> result instance_dict).
Context (no_customization_args : customization_args).
Context (get_widget_by_id : string -> string -> result widget).

Local Abbreviation handler_post :=
  (widgets.post get_widget_instance_dict no_customization_args get_widget_by_id).

(** X18. [WidgetHandler.post] serves a payload without
    [customization_args] as it serves one that gives the empty arguments,
    and it never raises [PageNotFoundException]: an exception of the
    registry or of the widget is not caught. *)
Theorem post_defaults_and_never_answers_not_found
    (payload : gmap string customization_args) (widget_type widget_id : string) :
  (payload !! "customization_args" = None ->
   widgets.post get_widget_instance_dict no_customization_args get_widget_by_id
     payload widget_type widget_id
   = handler_post (<["customization_args" := no_customization_args]> payload)
       widget_type widget_id)
  /\ handler_post payload widget_type widget_id <> widgets.PageNotFoundException
  /\ (forall e, get_widget_by_id widget_type widget_id = Raise e ->
      handler_post payload widget_type widget_id = widgets.Uncaught e).
Proof.
  unfold widgets.post. split_and!.
  - intros ->. by rewrite lookup_insert_eq.
  - destruct (get_widget_by_id _ _); [|done].
    by destruct (get_widget_instance_dict _ _).
  - by intros e ->.
Qed.
End PostHandler.

Section SummarySerialization.
Context `{Collaborators}.

(** X20. The dictionary [BlogPostSummary.serialize] encodes has the seven
    keys of the summary's [to_dict], among them [summary] and not [content],
    and has [last_updated] and [published_on] exactly when the respective
    timestamp is true. *)
Theorem summary_serialize_writes_a_timestamp_only_when_set
    (summary : BlogPostSummary.t) w :
  BlogPostSummary.serialize summary = Ok w ->
  exists d,
    json_dumps d = Ok w
    /\ (is_Some (d !! "last_updated")
        <-> truthy (BlogPostSummary.last_updated summary) = true)
    /\ (is_Some (d !! "published_on")
        <-> truthy (BlogPostSummary.published_on summary) = true)
    /\ d !! "summary" = Some (BlogPostSummary.summary summary)
    /\ d !! "content" = None
    /\ Forall (fun k => is_Some (d !! k))
         ["id"; "author_name"; "title"; "thumbnail_filename"; "tags";
          "url_fragment"].
Proof.
  unfold BlogPostSummary.serialize, BlogPostSummary.to_dict.
  destruct (user_services_get_username _) as [name|e]; [|done].
  simpl.
  destruct (truthy (BlogPostSummary.last_updated summary)),
           (truthy (BlogPostSummary.published_on summary)); simpl;
    repeat (match goal with
            | |- context [utils_convert_naive_datetime_to_string ?t] =>
                destruct (utils_convert_naive_datetime_to_string t) eqn:?;
                [|done]; simpl
            end);
    intros Hw; eexists; (split; [exact Hw|]);
    split_and!; try (by simplify_map_eq);
    try (split; [done|intros _; by simplify_map_eq]);
    try (split; [by simplify_map_eq; intros [? ?]|done]);
    try (repeat constructor; by simplify_map_eq).
Qed.
End SummarySerialization.

(* ===================================================================== *)
(** ** More worked examples *)
(* ===================================================================== *)

Section MoreWorkedExamples.
Import Examples MoreExamples.
#[local] Existing Instance world.

Lemma valid_post_is_well_formed_witness :
  exists id title tags content,
    BlogPost.id post_a = VStr id /\ String.length id = 12
    /\ BlogPost.title post_a = VStr title
    /\ String.length title <= MAX_CHARS_IN_BLOG_POST_TITLE
    /\ BlogPost.tags post_a = VList tags
    /\ Forall matches_spec_tag_regex tags /\ NoDup tags
    /\ BlogPost.thumbnail_filename post_a <> VStr ""
    /\ BlogPost.content post_a = VStr content
    /\ (true = true ->
        title <> "" /\ Re.re_match VALID_BLOG_POST_TITLE_REGEX title = true
        /\ tags <> []
        /\ (exists thumbnail, BlogPost.thumbnail_filename post_a = VStr thumbnail)
        /\ content <> "").
Proof. apply (valid_post_is_well_formed true post_a). vm_compute. reflexivity. Defined.

Lemma strict_validity_implies_relaxed_validity_witness :
  (BlogPost.validate false post_a).1 = Ok tt.
Proof.
  apply (proj1 strict_validity_implies_relaxed_validity post_a).
  vm_compute. reflexivity.
Defined.




Lemma accepted_tags_can_be_reordered_and_removed_witness :
  BlogPost.require_valid_tags (VList [VStr "two"]) true = Ok tt.
Proof.
  apply (accepted_tags_can_be_reordered_and_removed
           [VStr "one"; VStr "two"] [VStr "two"] true).
  - vm_compute. reflexivity.
  - discriminate.
  - left. apply sublist_cons, sublist_skip, sublist_nil.
Defined.

Lemma updates_preserve_strict_validity_witness :
  (BlogPost.validate true
     (BlogPost.update_title (VStr "Another Title") post_a).2).1 = Ok tt.
Proof.
  assert (Hvalid : (BlogPost.validate true post_a).1 = Ok tt)
    by (vm_compute; reflexivity).
  apply (proj1 (@updates_preserve_strict_validity world post_a
                  (VStr "Another Title") Hvalid)).
  vm_compute. reflexivity.
Defined.

Lemma deserialize_serialize_other_fields_witness :
  BlogPost.id post_a_published_after_round_trip = BlogPost.id post_a_published
  /\ BlogPost.title post_a_published_after_round_trip
     = BlogPost.title post_a_published
  /\ clean (BlogPost.content post_a_published)
     = Ok (BlogPost.content post_a_published_after_round_trip)
  /\ BlogPost.thumbnail_filename post_a_published_after_round_trip
     = BlogPost.thumbnail_filename post_a_published
  /\ BlogPost.tags post_a_published_after_round_trip
     = BlogPost.tags post_a_published
  /\ BlogPost.url_fragment post_a_published_after_round_trip
     = BlogPost.url_fragment post_a_published
  /\ timestamp_round_trip (BlogPost.last_updated post_a_published)
       (BlogPost.last_updated post_a_published_after_round_trip)
  /\ timestamp_round_trip (BlogPost.published_on post_a_published)
       (BlogPost.published_on post_a_published_after_round_trip).
Proof.
  assert (Hok : is_ok (BlogPost.serialize post_a_published) = true)
    by (vm_compute; reflexivity).
  destruct (BlogPost.serialize post_a_published) as [w|e] eqn:Hser;
    [clear Hok|discriminate Hok].
  assert (Hback : (w ← BlogPost.serialize post_a_published; BlogPost.deserialize w)
                  = Ok post_a_published_after_round_trip)
    by (vm_compute; reflexivity).
  rewrite Hser in Hback.
  apply (deserialize_serialize_other_fields post_a_published
           post_a_published_after_round_trip w).
  - intros d w'. unfold json_dumps, world, dumps. simpl.
    destruct (forallb _ _); [by intros [= ->]|done].
  - exact Hser.
  - exact Hback.
Defined.

Lemma serialize_writes_a_timestamp_only_when_set_witness :
  exists w d,
    BlogPost.serialize post_a = Ok w
    /\ dumps d = Ok w
    /\ (is_Some (d !! "last_updated") <-> truthy (BlogPost.last_updated post_a) = true)
    /\ (is_Some (d !! "published_on") <-> truthy (BlogPost.published_on post_a) = true)
    /\ Forall (fun k => is_Some (d !! k))
         ["id"; "author_name"; "title"; "content"; "thumbnail_filename";
          "tags"; "url_fragment"].
Proof.
  assert (Hok : is_ok (BlogPost.serialize post_a) = true)
    by (vm_compute; reflexivity).
  destruct (BlogPost.serialize post_a) as [w|e] eqn:Hser;
    [clear Hok|discriminate Hok].
  destruct (serialize_writes_a_timestamp_only_when_set post_a w Hser)
    as (d & Hd).
  exists w, d. exact (conj eq_refl Hd).
Defined.

Lemma summary_serialize_writes_a_timestamp_only_when_set_witness :
  exists w d,
    BlogPostSummary.serialize summary_a = Ok w
    /\ dumps d = Ok w
    /\ d !! "summary" = Some (VStr "...")
    /\ d !! "last_updated" = None.
Proof.
  assert (Hok : is_ok (BlogPostSummary.serialize summary_a) = true)
    by (vm_compute; reflexivity).
  destruct (BlogPostSummary.serialize summary_a) as [w|e] eqn:Hser;
    [clear Hok|discriminate Hok].
  destruct (summary_serialize_writes_a_timestamp_only_when_set _ w Hser)
    as (d & Hd & Hl & _ & Hs & _).
  exists w, d. split; [reflexivity|]. split; [exact Hd|]. split; [exact Hs|].
  destruct (d !! "last_updated") eqn:E; [|reflexivity].
  assert (Hsome : is_Some (Some v)) by eauto.
  apply Hl in Hsome. discriminate Hsome.
Defined.

Lemma process_is_quiet_on_consistent_titles_witness :
  blog_validations.process title_mismatch_error fresh_summaries model_a
  = Generated [] None.
Proof.
  apply process_is_quiet_on_consistent_titles. right.
  exists (Build_BlogPostSummaryModel "blogpostid_a" "Sample Title").
  split; reflexivity.
Defined.

Lemma process_fails_without_a_summary_witness :
  blog_validations.process title_mismatch_error ∅ model_a
  = Generated []
      (Some (AttributeError "'NoneType' object has no attribute 'title'")).
Proof.
  apply process_fails_without_a_summary; [discriminate|reflexivity].
Defined.

Lemma get_groups_widgets_by_category_witness :
  exists dicts,
    Forall2 (fun w d => instance_dict_of w tt = Ok d) widget_list dicts
    /\ forall c,
         match ({[ "Basic Input" := [2; 5]; "Custom" := [7] ]}
                  : gmap string (list nat)) !! c with
         | Some l =>
             l <> []
             /\ l ≡ₚ widgets.dicts_of_category fst c widget_list dicts
         | None => forall w, w ∈ widget_list -> w.1 <> c
         end.
Proof.
  apply (get_groups_widgets_by_category fst instance_dict_of tt widgets_of_type
           Nat.ltb "interactive" widget_list).
  - reflexivity.
  - vm_compute. reflexivity.
Defined.

Lemma get_sorts_every_category_witness :
  Sorted (widgets.not_after Nat.ltb) [2; 5].
Proof.
  apply (get_sorts_every_category fst instance_dict_of tt widgets_of_type
           Nat.ltb "interactive"
           {[ "Basic Input" := [2; 5]; "Custom" := [7] ]} "Basic Input").
  - intros a b Hab. apply Nat.ltb_lt in Hab. apply Nat.ltb_ge. lia.
  - vm_compute. reflexivity.
  - vm_compute. reflexivity.
Defined.

End MoreWorkedExamples.
